(** * Nova flood assistant: the chat edge function and the chat widget

    A shallow embedding of

    - [supabase/functions/chat/index.ts]: the edge function that turns the
      recent messages and the new user message into a chat-completion
      request, calls the DeepSeek endpoint once, and attaches quick-reply
      options to the reply (module [Chat]);
    - [src/components/Nova/NovaChat.tsx]: the widget's event handlers
      [handleResponse], [handleOptionClick] and [handleSend] (module
      [NovaChat]).

    Conventions of the model.

    - A JavaScript string is a sequence of UTF-16 code units; the model
      covers the strings whose code units are below 256 (Latin-1), one
      [ascii] per code unit. [toLowerCase], [trim] and [includes] are
      exact on those strings.
    - The outside world (session provider, persistence store, DeepSeek
      endpoint) is an environment the handlers consult; what the handlers
      do to the world (rows written, functions invoked, requests fetched,
      notices shown, console output) is recorded in the state they thread.
    - A JavaScript exception is the [Thrown] outcome of a computation.
    - One turn runs to completion before the next event is handled. *)

From Stdlib Require Import String Ascii List Bool Arith Lia.
From stdpp Require Import base gmap list strings.

Import ListNotations.

(** ** JavaScript strings *)

Module Js.

(** [String.prototype.toLowerCase] on one Latin-1 code unit: A-Z and the
    accented capitals U+00C0-U+00DE (without the multiplication sign
    U+00D7) move 32 places up; every other code unit stays. *)
Definition lowerChar (c : ascii) : ascii :=
  let n := nat_of_ascii c in
  if ((65 <=? n) && (n <=? 90))
     || ((192 <=? n) && (n <=? 222) && negb (n =? 215))
  then ascii_of_nat (n + 32)
  else c.

Fixpoint toLowerCase (s : string) : string :=
  match s with
  | EmptyString => EmptyString
  | String c s' => String (lowerChar c) (toLowerCase s')
  end.

(** [s.startsWith(p)]. *)
Fixpoint startsWith (s p : string) {struct p} : bool :=
  match p, s with
  | EmptyString, _ => true
  | String _ _, EmptyString => false
  | String a p', String b s' => if ascii_dec a b then startsWith s' p' else false
  end.

(** [s.includes(p)]: [p] occurs in [s] at some position. *)
Fixpoint includes (s p : string) : bool :=
  if startsWith s p then true
  else match s with
       | EmptyString => false
       | String _ s' => includes s' p
       end.

(** White space and line terminators of ECMAScript below U+0100: TAB, LF,
    VT, FF, CR, SPACE and NO-BREAK SPACE. *)
Definition isWhiteSpace (c : ascii) : bool :=
  let n := nat_of_ascii c in
  ((9 <=? n) && (n <=? 13)) || (n =? 32) || (n =? 160).

Fixpoint trimStart (s : string) : string :=
  match s with
  | EmptyString => EmptyString
  | String c s' => if isWhiteSpace c then trimStart s' else s
  end.

Definition reverse (s : string) : string :=
  string_of_list_ascii (rev (list_ascii_of_string s)).

Definition trimEnd (s : string) : string := reverse (trimStart (reverse s)).

(** [String.prototype.trim]. *)
Definition trim (s : string) : string := trimEnd (trimStart s).

(** A string is truthy when it is not empty. *)
Definition truthy (s : string) : bool :=
  match s with EmptyString => false | String _ _ => true end.

(** [v || d] where [v] is a string or [undefined]. *)
Definition orElse (v : option string) (d : string) : string :=
  match v with
  | Some s => if truthy s then s else d
  | None => d
  end.

(** [a.slice(-n)]: the last [n] elements, the whole array when it has
    fewer. *)
Definition sliceLast {A : Type} (n : nat) (a : list A) : list A :=
  skipn (length a - n) a.

(** An [Error] object, as far as the code reads it. *)
Record Error := { errorMessage : string }.

(** How a computation ends. *)
Inductive Outcome (A : Type) : Type :=
| Returned (a : A)
| Thrown (e : Error).
Arguments Returned {A} a.
Arguments Thrown {A} e.

(** Computations over a state [S] that may throw. *)
Definition Comp (S A : Type) : Type := S -> Outcome A * S.

Definition ret {S A : Type} (a : A) : Comp S A := fun s => (Returned a, s).

Definition throw {S A : Type} (e : Error) : Comp S A := fun s => (Thrown e, s).

Definition bind {S A B : Type} (c : Comp S A) (k : A -> Comp S B) : Comp S B :=
  fun s =>
    match c s with
    | (Returned a, s') => k a s'
    | (Thrown e, s') => (Thrown e, s')
    end.

(** [try { c } catch (e) { h e }]. *)
Definition tryCatch {S A : Type} (c : Comp S A) (h : Error -> Comp S A) : Comp S A :=
  fun s =>
    match c s with
    | (Returned a, s') => (Returned a, s')
    | (Thrown e, s') => h e s'
    end.

(** [try { c } finally { f }] where [f] neither throws nor returns. *)
Definition tryFinally {S A : Type} (c : Comp S A) (f : S -> S) : Comp S A :=
  fun s => let '(o, s') := c s in (o, f s').

(** A state change that cannot fail. *)
Definition modify {S : Type} (f : S -> S) : Comp S unit := fun s => (Returned tt, f s).

End Js.

Declare Scope js_scope.
Delimit Scope js_scope with js.
Notation "x <- c ;; k" := (Js.bind c (fun x => k))
  (at level 100, c at next level, right associativity) : js_scope.
Notation "c ;;; k" := (Js.bind c (fun _ => k))
  (at level 100, right associativity) : js_scope.

(** ** The edge function: supabase/functions/chat/index.ts *)

Module Chat.
Import Js.

(** [interface Message]. *)
Inductive MessageType := user | bot.

Record Message := {
  type : MessageType;
  content : string;
  options : option (list string)
}.

(** [interface RequestBody]. *)
Record RequestBody := {
  message : string;
  context : list Message
}.

(** A request, as far as the function reads it: its method and, for the
    requests the widget sends, the body [await req.json()] resolves to, a
    [RequestBody] as the interface above declares it. *)
Record Request := {
  method : string;
  json : RequestBody
}.

(** An entry of the chat-completion request's [messages]. *)
Inductive Role := system | assistant | userRole.

Record RoleContent := {
  role : Role;
  roleContent : string
}.

Definition corsHeaders : list (string * string) :=
  [ ("Access-Control-Allow-Origin", "*");
    ("Access-Control-Allow-Headers", "authorization, x-client-info, apikey, content-type") ].

Definition systemPrompt : string :=
"You are Nova, a flood awareness and emergency response assistant. Your primary goal is to help users with:
1. Understanding flood risks and types
2. Emergency preparedness
3. Local flood alerts and warnings
4. Post-flood recovery guidance
5. Emergency contacts and resources

Keep responses concise, practical, and focused on flood-related information. Always maintain a helpful and reassuring tone.

Current location context: Chennai, Tamil Nadu, India
Emergency contacts:
- Police: 100
- Flood Control: 1913
- Emergency Services: 108".

(** The body sent to the chat-completion endpoint; [temperature] is kept
    as the JSON literal it is serialised to. *)
Record CompletionRequest := {
  model : string;
  messages : list RoleContent;
  temperature : string;
  max_tokens : nat
}.

(** The endpoint's JSON body, at the places the code reads:
    [errorData.error?.message] and [data.choices[0].message.content].
    A body that parses is taken to be an object of the API's shape: its
    [error], when there, an object whose [message], when there, is a
    string; its [choices] an array of completions with a message. *)
Record ErrorObject := { upstreamMessage : option string }.
Record ChoiceMessage := { choiceContent : string }.
Record Choice := { choiceMessage : ChoiceMessage }.

Record UpstreamJson := {
  error : option ErrorObject;
  choices : list Choice
}.

(** What [await response.json()] does with the body: it rejects with the
    parser's error when the body is not JSON, or resolves to the parsed
    body. *)
Inductive JsonResult :=
| Unparsable (e : Error)
| Parsed (j : UpstreamJson).

Record UpstreamResponse := {
  ok : bool;
  responseBody : JsonResult
}.

(** The fields of the body; a body that does not parse has none. *)
Definition upstreamJson (r : UpstreamResponse) : UpstreamJson :=
  match responseBody r with
  | Parsed j => j
  | Unparsable _ => {| error := None; choices := [] |}
  end.

(** [fetch] rejects (no response at all) or resolves to a response. *)
Inductive FetchResult :=
| Rejected (e : Error)
| Resolved (r : UpstreamResponse).

(** What the function does to the outside, in order. *)
Inductive Event :=
| ConsoleLog (label : string)
| ConsoleError (label : string)
| Fetched (url : string) (body : CompletionRequest).

(** The three responses the function builds. *)
Inductive Response :=
| Preflight
| Reply (aiMessage : Message)
| Failure (errorField details : string).

Definition status (r : Response) : nat :=
  match r with
  | Preflight => 200
  | Reply _ => 200
  | Failure _ _ => 500
  end.

Definition headers (r : Response) : list (string * string) :=
  match r with
  | Preflight => corsHeaders
  | Reply _ | Failure _ _ => corsHeaders ++ [("Content-Type", "application/json")]
  end.

(** Lines 46-61: [context.map(...)], then [unshift] of the system entry,
    then [push] of the current message. *)
Definition formatMessage (msg : Message) : RoleContent :=
  {| role := match type msg with user => userRole | bot => assistant end;
     roleContent := content msg |}.

Definition unshift {A : Type} (x : A) (a : list A) : list A := x :: a.

Definition push {A : Type} (a : list A) (x : A) : list A := a ++ [x].

Definition conversationHistory (context : list Message) (message : string)
  : list RoleContent :=
  push
    (unshift {| role := system; roleContent := systemPrompt |}
             (map formatMessage context))
    {| role := userRole; roleContent := message |}.

(** Lines 86-105: the quick-reply options for a user message. *)
Definition optionsFor (message : string) : list string :=
  if includes (toLowerCase message) "flood risk" then
    [ "How can I prepare?"; "Show emergency contacts"; "Get local alerts" ]
  else if includes (toLowerCase message) "emergency" then
    [ "Call emergency services"; "Evacuation guidelines"; "Find shelter" ]
  else
    [ "Tell me more"; "What should I do next?"; "Back to main menu" ].

(** Lines 107-111. *)
Definition aiMessage (message modelText : string) : Message :=
  {| type := bot; content := modelText; options := Some (optionsFor message) |}.

(** The [TypeError] of reading [.message] of [undefined] (V8's wording). *)
Definition undefinedMessageError : Error :=
  {| errorMessage := "Cannot read properties of undefined (reading 'message')" |}.

Definition genericError : string := "Failed to get response. Please try again.".

(** [errorData.error?.message]. *)
Definition errorMessageOf (errorData : UpstreamJson) : option string :=
  match error errorData with
  | Some e => upstreamMessage e
  | None => None
  end.

Definition completionsUrl : string := "https://api.deepseek.com/v1/chat/completions".

(** Lines 69-74: the body of the request to the endpoint. *)
Definition completionRequest (context : list Message) (message : string)
  : CompletionRequest :=
  {| model := "deepseek-chat";
     messages := conversationHistory context message;
     temperature := "0.7";
     max_tokens := 1000 |}.

Section Handler.

(** The DeepSeek endpoint, as seen through [fetch]. *)
Variable fetch : string -> CompletionRequest -> FetchResult.

Local Open Scope js_scope.

Definition Srv (A : Type) : Type := Comp (list Event) A.

Definition emit (e : Event) : Srv unit := modify (fun t => t ++ [e]).

Definition doFetch (url : string) (body : CompletionRequest) : Srv UpstreamResponse :=
  emit (Fetched url body) ;;;
  match fetch url body with
  | Rejected e => throw e
  | Resolved r => ret r
  end.

(** [await deepseekResponse.json()]. *)
Definition readJson (r : UpstreamResponse) : Srv UpstreamJson :=
  match responseBody r with
  | Unparsable e => throw e
  | Parsed j => ret j
  end.

(** [data.choices[0].message.content]. *)
Definition firstChoiceContent (data : UpstreamJson) : Srv string :=
  match choices data with
  | [] => throw undefinedMessageError
  | c :: _ => ret (choiceContent (choiceMessage c))
  end.

(** The body of the [try] block, lines 41-115. *)
Definition turn (req : Request) : Srv Response :=
  let message := message (json req) in
  let context := context (json req) in
  emit (ConsoleLog "Received message:") ;;;
  emit (ConsoleLog "Context:") ;;;
  deepseekResponse <-
    doFetch completionsUrl (completionRequest context message) ;;
  if negb (ok deepseekResponse) then
    errorData <- readJson deepseekResponse ;;
    emit (ConsoleError "DeepSeek API error:") ;;;
    throw {| errorMessage :=
               "DeepSeek API error: " +:+
               orElse (errorMessageOf errorData) "Unknown error" |}
  else
    data <- readJson deepseekResponse ;;
    emit (ConsoleLog "DeepSeek response:") ;;;
    modelText <- firstChoiceContent data ;;
    ret (Reply (aiMessage message modelText)).

(** The [catch] block, lines 116-125. *)
Definition onError (e : Error) : Srv Response :=
  emit (ConsoleError "Error in chat function:") ;;;
  ret (Failure genericError (errorMessage e)).

(** The function passed to [serve]. *)
Definition serve (req : Request) : Srv Response :=
  if String.eqb (method req) "OPTIONS" then ret Preflight
  else tryCatch (turn req) onError.

End Handler.

(** *** Arrays as objects: the context builder on a store

    [context.map] allocates a new array; [unshift] and [push] change that
    array in place. The store maps a reference to the array it holds. *)

Inductive ArrayObject :=
| MessageArray (a : list Message)
| RoleContentArray (a : list RoleContent).

Abbreviation Store := (gmap nat ArrayObject).

Definition allocate (h : Store) (a : ArrayObject) : Store * nat :=
  let r := fresh (dom h) in (<[r := a]> h, r).

Definition mapFormat (h : Store) (src : nat) : option (Store * nat) :=
  match h !! src with
  | Some (MessageArray a) => Some (allocate h (RoleContentArray (map formatMessage a)))
  | _ => None
  end.

Definition unshiftAt (h : Store) (r : nat) (x : RoleContent) : option Store :=
  match h !! r with
  | Some (RoleContentArray a) => Some (<[r := RoleContentArray (unshift x a)]> h)
  | _ => None
  end.

Definition pushAt (h : Store) (r : nat) (x : RoleContent) : option Store :=
  match h !! r with
  | Some (RoleContentArray a) => Some (<[r := RoleContentArray (push a x)]> h)
  | _ => None
  end.

(** Lines 46-61 on the store: the reference of [context] and the message
    come in, the reference of [conversationHistory] comes out. *)
Definition buildContext (h : Store) (context : nat) (message : string)
  : option (Store * nat) :=
  match mapFormat h context with
  | None => None
  | Some (h1, r) =>
      match unshiftAt h1 r {| role := system; roleContent := systemPrompt |} with
      | None => None
      | Some h2 =>
          match pushAt h2 r {| role := userRole; roleContent := message |} with
          | None => None
          | Some h3 => Some (h3, r)
          end
      end
  end.

End Chat.

(** ** The widget: src/components/Nova/NovaChat.tsx *)

Module NovaChat.
Import Js.
Import Chat (Message, MessageType, user, bot, type, content, options, RequestBody).

(** A notice shown through [toast]. *)
Record Toast := {
  variant : option string;
  description : string;
  duration : nat
}.

(** A row handed to [supabase.from('chat_messages').insert]. *)
Record Row := {
  rowContent : string;
  rowType : string;
  user_id : option string
}.

(** [supabase.auth.getSession()]: an error, no session, or the session of
    a user. *)
Inductive SessionResult :=
| SessionError (e : Error)
| NoSession
| Session (userId : string).

(** [supabase.functions.invoke]: [error] is set, or [data] is the parsed
    body ([null] when the response has none). *)
Inductive InvokeResult :=
| InvokeError (e : Error)
| InvokeData (data : option Message).

(** The collaborators of one turn: the session provider's answer, the
    store's verdict on a row, and the DeepSeek endpoint behind the edge
    function. *)
Record Env := {
  getSession : SessionResult;
  insertError : Row -> option Error;
  fetch : string -> Chat.CompletionRequest -> Chat.FetchResult
}.

(** The component's state ([messages], [input], [isLoading]) and what the
    handlers have done so far: notices shown, errors written to the
    console, rows in the [chat_messages] table, bodies the edge function
    was invoked with, and the edge function's own events. *)
Record World := {
  messages : list Message;
  input : string;
  isLoading : bool;
  toasts : list Toast;
  console : list Error;
  chat_messages : list Row;
  invocations : list RequestBody;
  serverEvents : list Chat.Event
}.

Definition initialMessages : list Message :=
  [ {| type := bot;
       content := "Hi! I'm Nova, your flood awareness assistant. How can I help you today?";
       options := Some [ "Learn about flood risks";
                         "Check emergency preparedness";
                         "Get local flood alerts";
                         "Post-flood recovery help";
                         "Set my location" ] |} ].

Definition setMessages (f : list Message -> list Message) (w : World) : World :=
  {| messages := f (messages w); input := input w; isLoading := isLoading w;
     toasts := toasts w; console := console w; chat_messages := chat_messages w;
     invocations := invocations w; serverEvents := serverEvents w |}.

Definition setInput (s : string) (w : World) : World :=
  {| messages := messages w; input := s; isLoading := isLoading w;
     toasts := toasts w; console := console w; chat_messages := chat_messages w;
     invocations := invocations w; serverEvents := serverEvents w |}.

Definition setIsLoading (b : bool) (w : World) : World :=
  {| messages := messages w; input := input w; isLoading := b;
     toasts := toasts w; console := console w; chat_messages := chat_messages w;
     invocations := invocations w; serverEvents := serverEvents w |}.

Definition toast (t : Toast) (w : World) : World :=
  {| messages := messages w; input := input w; isLoading := isLoading w;
     toasts := toasts w ++ [t]; console := console w; chat_messages := chat_messages w;
     invocations := invocations w; serverEvents := serverEvents w |}.

Definition consoleError (e : Error) (w : World) : World :=
  {| messages := messages w; input := input w; isLoading := isLoading w;
     toasts := toasts w; console := console w ++ [e]; chat_messages := chat_messages w;
     invocations := invocations w; serverEvents := serverEvents w |}.

Definition appendRow (r : Row) (w : World) : World :=
  {| messages := messages w; input := input w; isLoading := isLoading w;
     toasts := toasts w; console := console w; chat_messages := chat_messages w ++ [r];
     invocations := invocations w; serverEvents := serverEvents w |}.

Definition recordInvocation (b : RequestBody) (evs : list Chat.Event) (w : World) : World :=
  {| messages := messages w; input := input w; isLoading := isLoading w;
     toasts := toasts w; console := console w; chat_messages := chat_messages w;
     invocations := invocations w ++ [b]; serverEvents := evs |}.

Definition signInNotice : Toast :=
  {| variant := Some "destructive";
     description := "Please sign in to send messages.";
     duration := 3000 |}.

Definition failureNotice : Toast :=
  {| variant := Some "destructive";
     description := "Failed to get response. Please try again.";
     duration := 3000 |}.

Definition spellingNotice : Toast :=
  {| variant := None;
     description := "I've corrected some spelling to better understand your question.";
     duration := 3000 |}.

(** The error [invoke] reports for a response outside 200-299. *)
Definition functionsHttpError : Error :=
  {| errorMessage := "Edge Function returned a non-2xx status code" |}.

(** The [TypeError] of reading [.content] of [null] (V8's wording). *)
Definition nullContentError : Error :=
  {| errorMessage := "Cannot read properties of null (reading 'content')" |}.

Definition userEntry (text : string) : Message :=
  {| type := user; content := text; options := None |}.

Section Widget.

(** [@/utils/autocorrect] is not part of the sources at hand. *)
Variable autocorrect : string -> string.
Variable env : Env.

Local Open Scope js_scope.

Definition Ui (A : Type) : Type := Comp World A.

(** [supabase.from('chat_messages').insert([row])]: the row is appended
    unless the store reports an error. *)
Definition insert (row : Row) : Ui (option Error) :=
  match insertError env row with
  | Some e => ret (Some e)
  | None => modify (appendRow row) ;;; ret None
  end.

(** [supabase.functions.invoke('chat', { body })]: runs the edge
    function on a POST request with that body. *)
Definition invoke (body : RequestBody) : Ui InvokeResult :=
  fun w =>
    let '(o, evs) :=
      Chat.serve (fetch env) {| Chat.method := "POST"; Chat.json := body |} (serverEvents w) in
    let w' := recordInvocation body evs w in
    match o with
    | Returned r =>
        if (200 <=? Chat.status r) && (Chat.status r <=? 299) then
          match r with
          | Chat.Reply m => (Returned (InvokeData (Some m)), w')
          | _ => (Returned (InvokeData None), w')
          end
        else (Returned (InvokeError functionsHttpError), w')
    | Thrown e => (Returned (InvokeError functionsHttpError), w')
    end.

(** The [try] block of [handleResponse], lines 81-132. [messages] is
    the value the handler closed over when it was rendered. *)
Definition handleResponseTry (messages : list Message) (userMessage : string) : Ui unit :=
  match getSession env with
  | SessionError sessionError => throw sessionError
  | NoSession => modify (toast signInNotice)
  | Session userId =>
      insertError <-
        insert {| rowContent := userMessage; rowType := "user"; user_id := Some userId |} ;;
      match insertError with
      | Some e => throw e
      | None =>
          response <-
            invoke {| Chat.message := userMessage;
                      Chat.context := sliceLast 5 messages |} ;;
          match response with
          | InvokeError e => throw e
          | InvokeData None => throw nullContentError
          | InvokeData (Some aiMessage) =>
              botInsertError <-
                insert {| rowContent := content aiMessage; rowType := "bot"; user_id := None |} ;;
              match botInsertError with
              | Some e => throw e
              | None =>
                  modify (setMessages
                            (fun prev => prev ++ [userEntry userMessage; aiMessage]))
              end
          end
      end
  end.

(** [handleResponse], lines 78-143. *)
Definition handleResponse (messages : list Message) (userMessage : string)
  : World -> World :=
  fun w =>
    snd (tryFinally
           (tryCatch (handleResponseTry messages userMessage)
                     (fun error => modify (consoleError error) ;;;
                                   modify (toast failureNotice)))
           (setIsLoading false)
           (setIsLoading true w)).

(** [handleOptionClick], lines 145-148. *)
Definition handleOptionClick (messages : list Message) (option : string)
  : World -> World :=
  fun w =>
    handleResponse messages option
      (setMessages (fun prev => prev ++ [userEntry option]) w).

(** [handleSend], lines 150-163; [input] and [isLoading] are the values
    the handler closed over. *)
Definition handleSend (messages : list Message) (input : string) (isLoading : bool)
  : World -> World :=
  fun w =>
    if negb (truthy (trim input)) || isLoading then w
    else
      let correctedInput := autocorrect input in
      let w1 := if String.eqb correctedInput input then w
                else toast spellingNotice w in
      handleResponse messages correctedInput (setInput "" w1).

(** The handlers as the last render bound them: they close over the
    state of the moment the event arrives. *)
Definition clickOption (option : string) (w : World) : World :=
  handleOptionClick (messages w) option w.

Definition send (w : World) : World :=
  handleSend (messages w) (input w) (isLoading w) w.

End Widget.

End NovaChat.

(** ** Notions used in the statements *)

Module Wording.
Import Js.



(** Every code unit of [s] is white space (so also the empty string). *)
Definition whitespaceOnly (s : string) : bool :=
  forallb isWhiteSpace (list_ascii_of_string s).

(** The requests sent to the endpoint, read off the function's events. *)
Definition fetches (t : list Chat.Event) : list Chat.CompletionRequest :=
  flat_map (fun e => match e with Chat.Fetched _ b => [b] | _ => [] end) t.

(** A row of the message table carries one of the two message types. *)
Definition userOrBot (r : NovaChat.Row) : Prop :=
  NovaChat.rowType r = "user" \/ NovaChat.rowType r = "bot".

(** The call to the endpoint fails: no response, a non-success response,
    or a success response without a completion in it (a body that does
    not parse has none). *)
Definition upstreamFails (r : Chat.FetchResult) : Prop :=
  match r with
  | Chat.Rejected _ => True
  | Chat.Resolved r => Chat.ok r = false \/ Chat.choices (Chat.upstreamJson r) = []
  end.

(** The rows a turn for [userMessage] writes. *)
Definition userRow (userMessage userId : string) : NovaChat.Row :=
  {| NovaChat.rowContent := userMessage; NovaChat.rowType := "user";
     NovaChat.user_id := Some userId |}.

Definition botRow (text : string) : NovaChat.Row :=
  {| NovaChat.rowContent := text; NovaChat.rowType := "bot";
     NovaChat.user_id := None |}.

(** A turn for [userMessage], started from a handler that closed over
    [messages], goes through: there is a session, the store takes both
    rows, and the endpoint answers with success and a first completion
    whose text is [modelText]. *)
Definition turnSucceeds (env : NovaChat.Env) (messages : list Chat.Message)
           (userMessage modelText : string) : Prop :=
  exists userId r c rest,
    NovaChat.getSession env = NovaChat.Session userId /\
    NovaChat.insertError env (userRow userMessage userId) = None /\
    NovaChat.fetch env Chat.completionsUrl
      (Chat.completionRequest (sliceLast 5 messages) userMessage) = Chat.Resolved r /\
    Chat.ok r = true /\
    Chat.choices (Chat.upstreamJson r) = c :: rest /\
    Chat.choiceContent (Chat.choiceMessage c) = modelText /\
    NovaChat.insertError env (botRow modelText) = None.

(** A context sequence has the system entry at its head and nowhere
    else. *)
Definition systemOnlyAtHead (l : list Chat.RoleContent) : Prop :=
  exists rest,
    l = {| Chat.role := Chat.system; Chat.roleContent := Chat.systemPrompt |} :: rest /\
    Forall (fun rc => Chat.role rc <> Chat.system) rest.

(** What holds of the world after every event: the rows of the store and
    the entries of the log are user or bot messages, and each context
    sequence sent to the endpoint has its one system entry at the head. *)
Definition rolesInvariant (w : NovaChat.World) : Prop :=
  Forall userOrBot (NovaChat.chat_messages w) /\
  Forall (fun m => Chat.type m = Chat.user \/ Chat.type m = Chat.bot) (NovaChat.messages w) /\
  Forall (fun q => systemOnlyAtHead (Chat.messages q)) (fetches (NovaChat.serverEvents w)).

End Wording.

(** ** Runs of the widget: events handled one after the other *)

Module Events.
Import NovaChat.

Inductive UiEvent :=
| OptionClicked (option : string)
| SendPressed
| InputChanged (text : string).

Definition initialWorld : World :=
  {| messages := initialMessages; input := ""; isLoading := false;
     toasts := []; console := []; chat_messages := [];
     invocations := []; serverEvents := [] |}.

Section Run.

Variable autocorrect : string -> string.

(** One event, in the environment of its turn. *)
Definition step (w : World) (turn : Env * UiEvent) : World :=
  match snd turn with
  | OptionClicked option => clickOption (fst turn) option w
  | SendPressed => send autocorrect (fst turn) w
  | InputChanged text => setInput text w
  end.

Definition run (turns : list (Env * UiEvent)) (w : World) : World :=
  fold_left step turns w.

End Run.

End Events.

(** ** Sample inputs *)

Module Fixtures.
Import Js Chat NovaChat.

Definition sampleHistory : list Message :=
  [ {| type := bot; content := "How can I help you today?";
       options := Some ["Learn about flood risks"; "Set my location"] |};
    {| type := user; content := "Learn about flood risks"; options := None |} ].

Definition sampleRequest : Request :=
  {| method := "POST";
     json := {| message := "What are flood risks?"; context := [] |} |}.

(** An endpoint that answers every request with [r]. *)
Definition respond (r : UpstreamResponse) : string -> CompletionRequest -> FetchResult :=
  fun _ _ => Resolved r.

(** A non-2xx answer whose body is [{ error: { message } }]. *)
Definition upstreamError (message : option string) : UpstreamResponse :=
  {| ok := false;
     responseBody :=
       Parsed {| error := Some {| upstreamMessage := message |}; choices := [] |} |}.

(** A 2xx answer with one completion. *)
Definition upstreamReply (text : string) : UpstreamResponse :=
  {| ok := true;
     responseBody :=
       Parsed {| error := None;
                 choices := [ {| choiceMessage := {| choiceContent := text |} |} ] |} |}.

(** A store that accepts every row. *)
Definition envOf (s : SessionResult) (r : UpstreamResponse) : Env :=
  {| getSession := s; insertError := fun _ => None; fetch := respond r |}.

Definition sampleStore : gmap nat ArrayObject :=
  {[ 0 := MessageArray sampleHistory ]}.

Definition otherStore : gmap nat ArrayObject :=
  {[ 3 := MessageArray sampleHistory; 4 := RoleContentArray [] ]}.

End Fixtures.

(** ** The location handler: [requestLocationPermission]

    The component's [location] state and the notices the handler shows.
    No other handler of the component reads or writes [location]. *)

Module Geolocation.
Import NovaChat.

Section Position.

(** Latitude and longitude: numbers the handler copies and never
    computes with. *)
Variable Number : Type.

Record Coordinates := {
  latitude : Number;
  longitude : Number
}.

Record EmergencyContacts := {
  police : string;
  floodControl : string;
  emergencyServices : string
}.

Record Location := {
  city : string;
  state : string;
  country : string;
  emergencyContacts : EmergencyContacts;
  coordinates : option Coordinates
}.

Definition defaultLocation : Location :=
  {| city := "Chennai";
     state := "Tamil Nadu";
     country := "India";
     emergencyContacts :=
       {| police := "100"; floodControl := "1913"; emergencyServices := "108" |};
     coordinates := None |}.

(** [navigator]: without a [geolocation] entry, or with one whose
    [getCurrentPosition] reports an error ([None]) or the coordinates of
    a position. *)
Inductive Navigator :=
| NoGeolocation
| WithGeolocation (getCurrentPosition : option Coordinates).

Record LocationState := {
  location : Location;
  notices : list Toast
}.

Definition locationUpdatedNotice : Toast :=
  {| variant := None;
     description := "Location updated to Chennai, Tamil Nadu";
     duration := 3000 |}.

Definition locationUnavailableNotice : Toast :=
  {| variant := Some "destructive";
     description := "Unable to access location. Using default Chennai location.";
     duration := 3000 |}.

(** [requestLocationPermission], lines 49-76. *)
Definition requestLocationPermission (navigator : Navigator) (s : LocationState)
  : LocationState :=
  match navigator with
  | NoGeolocation => s
  | WithGeolocation (Some position) =>
      {| location :=
           {| city := city (location s);
              state := state (location s);
              country := country (location s);
              emergencyContacts := emergencyContacts (location s);
              coordinates := Some {| latitude := latitude position;
                                     longitude := longitude position |} |};
         notices := notices s ++ [locationUpdatedNotice] |}
  | WithGeolocation None =>
      {| location := location s;
         notices := notices s ++ [locationUnavailableNotice] |}
  end.

End Position.

Arguments latitude {Number} _.
Arguments longitude {Number} _.
Arguments city {Number} _.
Arguments state {Number} _.
Arguments country {Number} _.
Arguments emergencyContacts {Number} _.
Arguments coordinates {Number} _.
Arguments location {Number} _.
Arguments notices {Number} _.
Arguments NoGeolocation {Number}.
Arguments WithGeolocation {Number} _.
Arguments requestLocationPermission {Number} _ _.

End Geolocation.

(** ** Further notions and sample inputs *)

Module Table.
Import NovaChat.

(** The number of rows of the table with a given type. *)
Definition countRows (ty : string) (rows : list Row) : nat :=
  length (List.filter (fun r => String.eqb (rowType r) ty) rows).

(** A user row names its user, a bot row names none. *)
Definition wellFormedRow (r : Row) : Prop :=
  (rowType r = "user" /\ exists userId, user_id r = Some userId) \/
  (rowType r = "bot" /\ user_id r = None).

(** Two worlds show the user the same and hold the same rows; they may
    differ in what the edge function did on its side. *)
Definition sameForUser (w1 w2 : World) : Prop :=
  messages w1 = messages w2 /\
  input w1 = input w2 /\
  isLoading w1 = isLoading w2 /\
  toasts w1 = toasts w2 /\
  console w1 = console w2 /\
  chat_messages w1 = chat_messages w2 /\
  invocations w1 = invocations w2.

End Table.

Module Samples.
Import Js Chat NovaChat Fixtures.

(** A store that refuses every row of one type. *)
Definition refusing (ty : string) (e : Error) (r : Row) : option Error :=
  if String.eqb (rowType r) ty then Some e else None.

Definition storeDown : Error := {| errorMessage := "permission denied for table chat_messages" |}.

Definition envRefusing (ty : string) (r : UpstreamResponse) : Env :=
  {| getSession := Session "u1"; insertError := refusing ty storeDown; fetch := respond r |}.

Definition offline : Error := {| errorMessage := "error sending request" |}.

(** An endpoint that cannot be reached. *)
Definition unreachable : string -> CompletionRequest -> FetchResult :=
  fun _ _ => Rejected offline.

(** The parser's error for a body that starts with an HTML tag. *)
Definition notJson : Error :=
  {| errorMessage := "Unexpected token < in JSON at position 0" |}.

(** A non-2xx answer whose body is an HTML page. *)
Definition gatewayPage : UpstreamResponse :=
  {| ok := false; responseBody := Unparsable notJson |}.

(** A success answer with two completions. *)
Definition twoCompletions (first second : string) : UpstreamResponse :=
  {| ok := true;
     responseBody :=
       Parsed {| error := None;
                 choices := [ {| choiceMessage := {| choiceContent := first |} |};
                              {| choiceMessage := {| choiceContent := second |} |} ] |} |}.

(** [sampleHistory] without its option lists. *)
Definition bareHistory : list Message :=
  [ {| type := bot; content := "How can I help you today?"; options := None |};
    {| type := user; content := "Learn about flood risks"; options := None |} ].

(** An autocorrection that fixes one word. *)
Definition fixFlod (s : string) : string :=
  if String.eqb s "flod risk" then "flood risk" else s.

End Samples.

(** ** Facts about strings *)

Section StringFacts.
Import Js Wording.

Example lowerChar_letters :
  map (fun n => nat_of_ascii (lowerChar (ascii_of_nat n)))
      [64; 65; 90; 91; 97; 122; 191; 192; 214; 215; 216; 222; 223; 255]
  = [64; 97; 122; 91; 97; 122; 191; 224; 246; 215; 248; 254; 223; 255].
Proof. reflexivity. Qed.

Example toLowerCase_mixed : toLowerCase "Flood RISK, Now!" = "flood risk, now!".
Proof. reflexivity. Qed.

Example includes_examples :
  includes "a flood risk map" "flood risk" = true /\
  includes "flood  risk" "flood risk" = false /\
  includes "" "" = true /\
  includes "emergenc" "emergency" = false.
Proof. repeat split. Qed.

Example trim_examples :
  trim ("  hello world " +:+ String (ascii_of_nat 9) (String (ascii_of_nat 160) ""))
    = "hello world" /\
  trim "   " = "" /\ trim "" = "".
Proof. repeat split. Qed.

Lemma append_cons (c : ascii) (s t : string) :
  String c s +:+ t = String c (s +:+ t).
Proof. reflexivity. Qed.

Lemma append_nil_r (s : string) : s +:+ "" = s.
Proof. induction s as [|c s IH]; [reflexivity | now rewrite append_cons, IH]. Qed.






Lemma trimStart_whitespaceOnly (s : string) :
  whitespaceOnly s = true -> trimStart s = "".
Proof.
  unfold whitespaceOnly. induction s as [|c s IH]; [reflexivity|].
  cbn. intros H. apply andb_true_iff in H as [Hc Hs]. rewrite Hc. auto.
Qed.

Lemma trim_whitespaceOnly (s : string) :
  whitespaceOnly s = true -> trim s = "".
Proof. intros H. unfold trim. now rewrite trimStart_whitespaceOnly. Qed.

Lemma forallb_rev {A : Type} (f : A -> bool) (l : list A) :
  forallb f (rev l) = forallb f l.
Proof.
  induction l as [|x l IH]; [reflexivity|].
  cbn. rewrite forallb_app, IH. cbn. rewrite andb_true_r. apply andb_comm.
Qed.

Lemma whitespaceOnly_reverse (s : string) :
  whitespaceOnly (reverse s) = whitespaceOnly s.
Proof.
  unfold whitespaceOnly, reverse. rewrite list_ascii_of_string_of_list_ascii.
  apply forallb_rev.
Qed.

Lemma trimStart_not_whitespaceOnly (s : string) :
  whitespaceOnly s = false -> whitespaceOnly (trimStart s) = false.
Proof.
  unfold whitespaceOnly. induction s as [|c s IH]; [discriminate|].
  cbn. destruct (isWhiteSpace c) eqn:Hc; [exact IH|].
  intros _. cbn. now rewrite Hc.
Qed.

Lemma reverse_reverse (s : string) : reverse (reverse s) = s.
Proof.
  unfold reverse. rewrite list_ascii_of_string_of_list_ascii, rev_involutive.
  apply string_of_list_ascii_of_string.
Qed.

Lemma trim_not_whitespaceOnly (s : string) :
  whitespaceOnly s = false -> truthy (trim s) = true.
Proof.
  intros H. assert (Hw : whitespaceOnly (trim s) = false).
  { unfold trim, trimEnd. rewrite whitespaceOnly_reverse.
    apply trimStart_not_whitespaceOnly. rewrite whitespaceOnly_reverse.
    now apply trimStart_not_whitespaceOnly. }
  destruct (trim s); [discriminate|reflexivity].
Qed.

(** [!input.trim()] holds exactly for the inputs that are empty or all
    white space. *)
Lemma trim_falsy (s : string) : negb (truthy (trim s)) = whitespaceOnly s.
Proof.
  destruct (whitespaceOnly s) eqn:H.
  - now rewrite (trim_whitespaceOnly _ H).
  - now rewrite (trim_not_whitespaceOnly _ H).
Qed.

End StringFacts.

(** ** The edge function *)

Section ContextBuilder.
Import Js Chat.

Lemma conversationHistory_eq (context : list Message) (message : string) :
  conversationHistory context message =
  {| role := system; roleContent := systemPrompt |}
    :: map formatMessage context ++ [ {| role := userRole; roleContent := message |} ].
Proof. reflexivity. Qed.

(** C1. For a history of at most five messages and a new message, the
    built context has two entries more than the history; it starts with
    the system directive, ends with the new message in the user role,
    and in between holds the history in its order, [user] entries in the
    user role and [bot] entries in the assistant role, each with its
    content (an entry of the context has no option list). *)
Theorem conversationHistory_shape (H : list Message) (m : string) :
  length H <= 5 ->
  length (conversationHistory H m) = length H + 2 /\
  conversationHistory H m !! 0 = Some {| role := system; roleContent := systemPrompt |} /\
  conversationHistory H m !! (length H + 1) = Some {| role := userRole; roleContent := m |} /\
  (forall i msg, H !! i = Some msg ->
     exists rc, conversationHistory H m !! (S i) = Some rc /\
                roleContent rc = content msg /\
                (type msg = user -> role rc = userRole) /\
                (type msg = bot -> role rc = assistant)).
Proof.
  intros _. rewrite conversationHistory_eq. split; [|split; [|split]].
  - cbn [length]. rewrite length_app, length_map. cbn. lia.
  - reflexivity.
  - replace (length H + 1) with (S (length H)) by lia.
    rewrite lookup_cons_ne_0 by lia. cbn [Nat.pred].
    rewrite lookup_app_r by (rewrite length_map; lia).
    rewrite length_map, Nat.sub_diag. reflexivity.
  - intros i msg Hi. exists (formatMessage msg).
    rewrite lookup_cons_ne_0 by lia. cbn [Nat.pred].
    assert (Hlt : i < length (map formatMessage H))
      by (rewrite length_map; eapply lookup_lt_Some; eauto).
    rewrite lookup_app_l by exact Hlt.
    split.
    + change (map formatMessage H) with (formatMessage <$> H).
      rewrite list_lookup_fmap, Hi. reflexivity.
    + unfold formatMessage; cbn. repeat split; intros ->; reflexivity.
Qed.

Lemma conversationHistory_shape_witness :
  length Fixtures.sampleHistory <= 5 /\
  (length (conversationHistory Fixtures.sampleHistory "What are flood risks?")
     = length Fixtures.sampleHistory + 2 /\
   conversationHistory Fixtures.sampleHistory "What are flood risks?" !! 0
     = Some {| role := system; roleContent := systemPrompt |} /\
   conversationHistory Fixtures.sampleHistory "What are flood risks?"
       !! (length Fixtures.sampleHistory + 1)
     = Some {| role := userRole; roleContent := "What are flood risks?" |} /\
   (forall i msg, Fixtures.sampleHistory !! i = Some msg ->
      exists rc,
        conversationHistory Fixtures.sampleHistory "What are flood risks?" !! (S i)
          = Some rc /\
        roleContent rc = content msg /\
        (type msg = user -> role rc = userRole) /\
        (type msg = bot -> role rc = assistant))).
Proof.
  split; [cbn; lia|].
  apply (conversationHistory_shape Fixtures.sampleHistory "What are flood risks?").
  cbn; lia.
Defined.

(** The spec's first scenario: an empty history gives the system entry
    and the user's message, nothing else. *)
Example conversationHistory_empty_history :
  conversationHistory [] "What are flood risks?" =
    [ {| role := system; roleContent := systemPrompt |};
      {| role := userRole; roleContent := "What are flood risks?" |} ].
Proof. reflexivity. Qed.

End ContextBuilder.

Section ContextBuilderOnStore.
Import Js Chat.

Lemma fresh_lookup (h : gmap nat ArrayObject) : h !! fresh (dom h) = None.
Proof. apply not_elem_of_dom, is_fresh. Qed.

(** What [buildContext] does to a store that holds the array [a] at
    [context]: one new array, nothing else touched. *)
Lemma buildContext_eq (h : gmap nat ArrayObject) (context : nat)
      (a : list Message) (message : string) :
  h !! context = Some (MessageArray a) ->
  buildContext h context message =
    Some (<[fresh (dom h) := RoleContentArray (conversationHistory a message)]> h,
          fresh (dom h)).
Proof.
  intros Hc. unfold buildContext, mapFormat, allocate. rewrite Hc.
  unfold unshiftAt. rewrite lookup_insert_eq.
  unfold pushAt. rewrite lookup_insert_eq.
  now rewrite !insert_insert_eq.
Qed.

(** C8. The context builder is a function of the history and the new
    message alone: run on any two stores that hold the same history, with
    the same message, it succeeds on both and yields arrays with the same
    entries; and it has no effect on what was there before: the array it
    returns is a new object, and every object of the store it started
    from, the history among them, is left as it was. *)
Theorem buildContext_pure (h1 h2 : gmap nat ArrayObject) (c1 c2 : nat)
        (a : list Message) (message : string) :
  h1 !! c1 = Some (MessageArray a) ->
  h2 !! c2 = Some (MessageArray a) ->
  exists h1' r1 h2' r2 out,
    buildContext h1 c1 message = Some (h1', r1) /\
    buildContext h2 c2 message = Some (h2', r2) /\
    h1' !! r1 = Some (RoleContentArray out) /\
    h2' !! r2 = Some (RoleContentArray out) /\
    out = conversationHistory a message /\
    h1 !! r1 = None /\
    (forall p, p <> r1 -> h1' !! p = h1 !! p) /\
    h1' !! c1 = Some (MessageArray a).
Proof.
  intros H1 H2.
  exists (<[fresh (dom h1) := RoleContentArray (conversationHistory a message)]> h1),
         (fresh (dom h1)),
         (<[fresh (dom h2) := RoleContentArray (conversationHistory a message)]> h2),
         (fresh (dom h2)),
         (conversationHistory a message).
  pose proof (fresh_lookup h1) as Hf.
  repeat split.
  - now apply buildContext_eq.
  - now apply buildContext_eq.
  - apply lookup_insert_eq.
  - apply lookup_insert_eq.
  - exact Hf.
  - intros p Hp. now apply lookup_insert_ne.
  - rewrite lookup_insert_ne; [exact H1 | congruence].
Qed.

Lemma buildContext_pure_witness :
  Fixtures.sampleStore !! 0 = Some (MessageArray Fixtures.sampleHistory) /\
  Fixtures.otherStore !! 3 = Some (MessageArray Fixtures.sampleHistory) /\
  exists h1' r1 h2' r2 out,
    buildContext Fixtures.sampleStore 0 "hello" = Some (h1', r1) /\
    buildContext Fixtures.otherStore 3 "hello" = Some (h2', r2) /\
    h1' !! r1 = Some (RoleContentArray out) /\
    h2' !! r2 = Some (RoleContentArray out) /\
    out = conversationHistory Fixtures.sampleHistory "hello" /\
    Fixtures.sampleStore !! r1 = None /\
    (forall p, p <> r1 -> h1' !! p = Fixtures.sampleStore !! p) /\
    h1' !! 0 = Some (MessageArray Fixtures.sampleHistory).
Proof.
  split; [reflexivity|]. split; [reflexivity|].
  apply (buildContext_pure Fixtures.sampleStore Fixtures.otherStore 0 3
           Fixtures.sampleHistory "hello"); reflexivity.
Defined.

End ContextBuilderOnStore.

Section ReplyAugmenter.
Import Js Chat Wording.



(** The spec's sample messages. *)
Example optionsFor_emergency :
  optionsFor "EMERGENCY situation" =
    ["Call emergency services"; "Evacuation guidelines"; "Find shelter"].
Proof. reflexivity. Qed.

Example optionsFor_hello :
  optionsFor "hello" = ["Tell me more"; "What should I do next?"; "Back to main menu"].
Proof. reflexivity. Qed.

End ReplyAugmenter.

Section HandlerFacts.
Import Js Chat Wording.

Variable fetch : string -> CompletionRequest -> FetchResult.

Lemma fetches_app (t u : list Event) : fetches (t ++ u) = fetches t ++ fetches u.
Proof. unfold fetches. apply flat_map_app. Qed.

(** The request the turn for [req] sends. *)
Local Abbreviation requestOf req :=
  (completionRequest (context (json req)) (message (json req))).

Lemma turn_rejected (req : Request) (t : list Event) (e : Error) :
  fetch completionsUrl (requestOf req) = Rejected e ->
  turn fetch req t =
    (Thrown e,
     t ++ [ConsoleLog "Received message:"; ConsoleLog "Context:";
           Fetched completionsUrl (requestOf req)]).
Proof.
  intros Hf. unfold turn, doFetch, bind, emit, modify, throw. rewrite Hf.
  now rewrite <- !app_assoc.
Qed.

Lemma turn_unparsable (req : Request) (t : list Event) (r : UpstreamResponse)
      (e : Error) :
  fetch completionsUrl (requestOf req) = Resolved r ->
  responseBody r = Unparsable e ->
  turn fetch req t =
    (Thrown e,
     t ++ [ConsoleLog "Received message:"; ConsoleLog "Context:";
           Fetched completionsUrl (requestOf req)]).
Proof.
  intros Hf Hb. unfold turn, doFetch, readJson, bind, emit, modify, throw, ret.
  rewrite Hf, Hb. destruct (ok r); cbn [negb]; now rewrite <- !app_assoc.
Qed.

Lemma turn_not_ok (req : Request) (t : list Event) (r : UpstreamResponse)
      (j : UpstreamJson) :
  fetch completionsUrl (requestOf req) = Resolved r ->
  ok r = false ->
  responseBody r = Parsed j ->
  turn fetch req t =
    (Thrown {| errorMessage :=
                 "DeepSeek API error: " +:+
                 orElse (errorMessageOf j) "Unknown error" |},
     t ++ [ConsoleLog "Received message:"; ConsoleLog "Context:";
           Fetched completionsUrl (requestOf req);
           ConsoleError "DeepSeek API error:"]).
Proof.
  intros Hf Hok Hb. unfold turn, doFetch, readJson, bind, emit, modify, throw, ret.
  rewrite Hf, Hok, Hb. cbn [negb]. now rewrite <- !app_assoc.
Qed.

Lemma turn_ok (req : Request) (t : list Event) (r : UpstreamResponse)
      (j : UpstreamJson) :
  fetch completionsUrl (requestOf req) = Resolved r ->
  ok r = true ->
  responseBody r = Parsed j ->
  turn fetch req t =
    (match choices j with
     | [] => Thrown undefinedMessageError
     | c :: _ => Returned (Reply (aiMessage (message (json req))
                                            (choiceContent (choiceMessage c))))
     end,
     t ++ [ConsoleLog "Received message:"; ConsoleLog "Context:";
           Fetched completionsUrl (requestOf req);
           ConsoleLog "DeepSeek response:"]).
Proof.
  intros Hf Hok Hb.
  unfold turn, doFetch, readJson, firstChoiceContent, bind, emit, modify, throw, ret.
  rewrite Hf, Hok, Hb. cbn [negb].
  destruct (choices j); now rewrite <- !app_assoc.
Qed.

(** A response with a completion in it has a body that parsed. *)
Lemma choices_parsed (r : UpstreamResponse) (c : Choice) (rest : list Choice) :
  choices (upstreamJson r) = c :: rest ->
  exists j, responseBody r = Parsed j /\ choices j = c :: rest.
Proof.
  unfold upstreamJson. destruct (responseBody r) as [e|j]; [discriminate|].
  intros H. now exists j.
Qed.

Lemma turn_first_completion (req : Request) (t : list Event) (r : UpstreamResponse)
      (c : Choice) (rest : list Choice) :
  fetch completionsUrl (requestOf req) = Resolved r ->
  ok r = true ->
  choices (upstreamJson r) = c :: rest ->
  turn fetch req t =
    (Returned (Reply (aiMessage (message (json req)) (choiceContent (choiceMessage c)))),
     t ++ [ConsoleLog "Received message:"; ConsoleLog "Context:";
           Fetched completionsUrl (requestOf req);
           ConsoleLog "DeepSeek response:"]).
Proof.
  intros Hf Hok Hc. destruct (choices_parsed _ _ _ Hc) as (j & Hb & Hj).
  now rewrite (turn_ok _ _ _ _ Hf Hok Hb), Hj.
Qed.

(** Whatever the endpoint does, the turn leaves the two log lines and
    the one request behind, and then what depends on the answer. *)
Lemma turn_trace (req : Request) (t : list Event) :
  exists o rest,
    turn fetch req t =
      (o, t ++ [ConsoleLog "Received message:"; ConsoleLog "Context:";
                Fetched completionsUrl (requestOf req)] ++ rest) /\
    fetches rest = [] /\
    (forall t0, turn fetch req t0 =
       (o, t0 ++ [ConsoleLog "Received message:"; ConsoleLog "Context:";
                  Fetched completionsUrl (requestOf req)] ++ rest)) /\
    ((exists e, o = Thrown e) \/
     (exists text, o = Returned (Reply (aiMessage (message (json req)) text)))).
Proof.
  destruct (fetch completionsUrl (requestOf req)) as [e|r] eqn:Hf.
  - exists (Thrown e), []. split; [|split; [reflexivity|split; [|eauto]]].
    + now rewrite (turn_rejected _ _ _ Hf).
    + intros t0. now rewrite (turn_rejected _ _ _ Hf).
  - destruct (responseBody r) as [e|j] eqn:Hb.
    + exists (Thrown e), []. split; [|split; [reflexivity|split; [|eauto]]].
      * now rewrite (turn_unparsable _ _ _ _ Hf Hb).
      * intros t0. now rewrite (turn_unparsable _ _ _ _ Hf Hb).
    + destruct (ok r) eqn:Hok.
      * eexists _, [ConsoleLog "DeepSeek response:"].
        split; [apply (turn_ok _ _ _ _ Hf Hok Hb)|]. split; [reflexivity|].
        split; [intros t0; apply (turn_ok _ _ _ _ Hf Hok Hb)|].
        destruct (choices j); eauto.
      * eexists _, [ConsoleError "DeepSeek API error:"].
        split; [apply (turn_not_ok _ _ _ _ Hf Hok Hb)|]. split; [reflexivity|].
        split; [intros t0; apply (turn_not_ok _ _ _ _ Hf Hok Hb)|]. eauto.
Qed.

(** Every turn sends exactly one request to the endpoint. *)
Lemma turn_fetches_once (req : Request) (t : list Event) :
  fetches (snd (turn fetch req t)) = fetches t ++ [requestOf req].
Proof.
  destruct (turn_trace req t) as (o & rest & -> & Hrest & _).
  cbn [snd]. rewrite !fetches_app, Hrest. reflexivity.
Qed.

Lemma serve_not_options (req : Request) (t : list Event) :
  String.eqb (method req) "OPTIONS" = false ->
  serve fetch req t =
    match turn fetch req t with
    | (Returned r, t') => (Returned r, t')
    | (Thrown e, t') =>
        (Returned (Failure genericError (errorMessage e)),
         t' ++ [ConsoleError "Error in chat function:"])
    end.
Proof.
  intros Hm. unfold serve. rewrite Hm. unfold tryCatch.
  destruct (turn fetch req t) as [[r|e] t']; reflexivity.
Qed.

(** The edge function answers every request: no exception leaves it. *)
Lemma serve_returns (req : Request) (t : list Event) :
  exists r, fst (serve fetch req t) = Returned r.
Proof.
  destruct (String.eqb (method req) "OPTIONS") eqn:Hm.
  - unfold serve. rewrite Hm. now exists Preflight.
  - rewrite (serve_not_options _ _ Hm).
    destruct (turn fetch req t) as [[r|e] t']; eauto.
Qed.

Lemma serve_fetches_once (req : Request) (t : list Event) :
  String.eqb (method req) "OPTIONS" = false ->
  fetches (snd (serve fetch req t)) = fetches t ++ [requestOf req].
Proof.
  intros Hm. rewrite (serve_not_options _ _ Hm).
  pose proof (turn_fetches_once req t) as H.
  destruct (turn fetch req t) as [[r|e] t']; cbn [snd] in *; [exact H|].
  rewrite fetches_app, H. cbn. now rewrite app_nil_r.
Qed.

(** C6, amended. When the endpoint answers with a non-success response,
    the turn throws. If the body parses as JSON (an object of the API's
    shape), the error's message is "DeepSeek API error: " followed by
    the upstream error message when the body has a non-empty one, and by
    "Unknown error" when the body has none or an empty one. If the body
    does not parse, the error is the parser's. In both cases the edge
    function answers with status 500, and it has sent exactly one
    request to the endpoint. *)
Theorem turn_not_ok_throws_once (req : Request) (t : list Event) (r : UpstreamResponse) :
  fetch completionsUrl (requestOf req) = Resolved r ->
  ok r = false ->
  exists thrown t',
    turn fetch req t = (Thrown thrown, t') /\
    (forall j, responseBody r = Parsed j ->
       exists detail,
         thrown = {| errorMessage := "DeepSeek API error: " +:+ detail |} /\
         (forall s, errorMessageOf j = Some s -> s <> "" -> detail = s) /\
         (errorMessageOf j = None \/ errorMessageOf j = Some "" ->
          detail = "Unknown error")) /\
    (forall e, responseBody r = Unparsable e -> thrown = e) /\
    fetches t' = fetches t ++ [requestOf req] /\
    (String.eqb (method req) "OPTIONS" = false ->
     exists body,
       fst (serve fetch req t) = Returned body /\ status body = 500 /\
       fetches (snd (serve fetch req t)) = fetches t ++ [requestOf req]).
Proof.
  intros Hf Hok.
  assert (Hserve : forall thrown t',
             turn fetch req t = (Thrown thrown, t') ->
             String.eqb (method req) "OPTIONS" = false ->
             exists body,
               fst (serve fetch req t) = Returned body /\ status body = 500 /\
               fetches (snd (serve fetch req t)) = fetches t ++ [requestOf req]).
  { intros thrown t' Ht Hm. rewrite (serve_fetches_once _ _ Hm).
    rewrite (serve_not_options _ _ Hm), Ht. eexists. repeat split. }
  destruct (responseBody r) as [e|j] eqn:Hb.
  - pose proof (turn_unparsable req t r e Hf Hb) as Ht.
    eexists _, _. split; [exact Ht|]. split; [discriminate|].
    split; [now intros e' [= <-]|]. split; [now rewrite fetches_app|].
    now apply (Hserve _ _ Ht).
  - pose proof (turn_not_ok req t r j Hf Hok Hb) as Ht.
    eexists _, _. split; [exact Ht|]. split; [|split; [discriminate|]].
    + intros j' [= <-]. eexists. split; [reflexivity|]. split.
      * intros s -> Hs. destruct s; [contradiction|reflexivity].
      * intros [-> | ->]; reflexivity.
    + split; [now rewrite fetches_app|]. now apply (Hserve _ _ Ht).
Qed.

(** C3, amended. When the turn throws, the edge function answers with
    status 500 and a body of two fields: [error], the fixed notice, and
    [details], the message of the exception that was thrown. *)
Theorem serve_failure_body (req : Request) (t t' : list Event) (e : Error) :
  String.eqb (method req) "OPTIONS" = false ->
  turn fetch req t = (Thrown e, t') ->
  serve fetch req t =
    (Returned (Failure "Failed to get response. Please try again." (errorMessage e)),
     t' ++ [ConsoleError "Error in chat function:"]) /\
  status (Failure "Failed to get response. Please try again." (errorMessage e)) = 500.
Proof.
  intros Hm Ht. rewrite (serve_not_options _ _ Hm), Ht. split; reflexivity.
Qed.

End HandlerFacts.

Section HandlerExamples.
Import Js Chat Wording Fixtures Samples.

Lemma turn_not_ok_throws_once_witness :
  respond (upstreamError (Some "Insufficient Balance")) completionsUrl
    (completionRequest (context (json sampleRequest)) (message (json sampleRequest)))
    = Resolved (upstreamError (Some "Insufficient Balance")) /\
  ok (upstreamError (Some "Insufficient Balance")) = false /\
  exists thrown t',
    turn (respond (upstreamError (Some "Insufficient Balance"))) sampleRequest []
      = (Thrown thrown, t') /\
    (forall j, responseBody (upstreamError (Some "Insufficient Balance")) = Parsed j ->
       exists detail,
         thrown = {| errorMessage := "DeepSeek API error: " +:+ detail |} /\
         (forall s, errorMessageOf j = Some s -> s <> "" -> detail = s) /\
         (errorMessageOf j = None \/ errorMessageOf j = Some "" ->
          detail = "Unknown error")) /\
    (forall e, responseBody (upstreamError (Some "Insufficient Balance")) = Unparsable e ->
       thrown = e) /\
    fetches t' =
      fetches [] ++
      [completionRequest (context (json sampleRequest)) (message (json sampleRequest))] /\
    (String.eqb (method sampleRequest) "OPTIONS" = false ->
     exists body,
       fst (serve (respond (upstreamError (Some "Insufficient Balance"))) sampleRequest [])
         = Returned body /\
       status body = 500 /\
       fetches (snd (serve (respond (upstreamError (Some "Insufficient Balance")))
                       sampleRequest [])) =
         fetches [] ++
         [completionRequest (context (json sampleRequest)) (message (json sampleRequest))]).
Proof.
  split; [reflexivity|]. split; [reflexivity|].
  apply (turn_not_ok_throws_once
           (respond (upstreamError (Some "Insufficient Balance"))) sampleRequest []
           (upstreamError (Some "Insufficient Balance"))); reflexivity.
Defined.

(** The upstream message, where the body has one, is the text carried. *)
Example turn_not_ok_carries_message :
  fst (turn (respond (upstreamError (Some "Insufficient Balance"))) sampleRequest [])
    = Thrown {| errorMessage := "DeepSeek API error: Insufficient Balance" |} /\
  fst (turn (respond (upstreamError None)) sampleRequest [])
    = Thrown {| errorMessage := "DeepSeek API error: Unknown error" |}.
Proof. split; reflexivity. Qed.

(** C6 as stated fails in two ways. A non-success response whose body is
    not JSON makes the turn fail with the parser's error, which carries
    neither the upstream message nor "Unknown error". And on a body
    whose error message is the empty string, the message is there and
    the error carries "Unknown error" instead. *)
Lemma upstream_message_not_always_carried :
  (ok gatewayPage = false /\
   responseBody gatewayPage = Unparsable notJson /\
   fst (turn (respond gatewayPage) sampleRequest [])
     = Thrown {| errorMessage := "Unexpected token < in JSON at position 0" |}) /\
  (ok (upstreamError (Some "")) = false /\
   errorMessageOf (upstreamJson (upstreamError (Some ""))) = Some "" /\
   fst (turn (respond (upstreamError (Some ""))) sampleRequest [])
     = Thrown {| errorMessage := "DeepSeek API error: Unknown error" |}).
Proof. repeat split. Qed.

Lemma serve_failure_body_witness :
  String.eqb (method sampleRequest) "OPTIONS" = false /\
  turn (respond (upstreamError (Some "Insufficient Balance"))) sampleRequest []
    = (Thrown {| errorMessage := "DeepSeek API error: Insufficient Balance" |},
       [ConsoleLog "Received message:"; ConsoleLog "Context:";
        Fetched completionsUrl
          (completionRequest (context (json sampleRequest)) (message (json sampleRequest)));
        ConsoleError "DeepSeek API error:"]) /\
  serve (respond (upstreamError (Some "Insufficient Balance"))) sampleRequest []
    = (Returned (Failure "Failed to get response. Please try again."
                         "DeepSeek API error: Insufficient Balance"),
       [ConsoleLog "Received message:"; ConsoleLog "Context:";
        Fetched completionsUrl
          (completionRequest (context (json sampleRequest)) (message (json sampleRequest)));
        ConsoleError "DeepSeek API error:"] ++ [ConsoleError "Error in chat function:"]) /\
  status (Failure "Failed to get response. Please try again."
                  "DeepSeek API error: Insufficient Balance") = 500.
Proof.
  split; [reflexivity|]. split; [reflexivity|].
  apply (serve_failure_body
           (respond (upstreamError (Some "Insufficient Balance"))) sampleRequest []
           _ {| errorMessage := "DeepSeek API error: Insufficient Balance" |});
    reflexivity.
Defined.

(** C3 as stated fails: the body of the 500 answer carries the upstream
    error message in its [details] field, next to the fixed notice. *)
Lemma error_body_exposes_upstream_message :
  fst (serve (respond (upstreamError (Some "Insufficient Balance"))) sampleRequest [])
    = Returned (Failure "Failed to get response. Please try again."
                        "DeepSeek API error: Insufficient Balance") /\
  includes "DeepSeek API error: Insufficient Balance" "Insufficient Balance" = true /\
  String.eqb "DeepSeek API error: Insufficient Balance"
             "Failed to get response. Please try again." = false.
Proof. repeat split. Qed.

End HandlerExamples.

(** ** The widget *)

Section WidgetFacts.
Import Js Chat NovaChat Wording.

Variable env : Env.

(** How a failed turn leaves the world: the error on the console, the
    fixed notice shown, the busy flag cleared. *)
Local Abbreviation failed e w :=
  (setIsLoading false (toast failureNotice (consoleError e w))).

Local Abbreviation postRequest body :=
  ({| method := "POST"; json := body |}).

Lemma turn_outcome (fetch : string -> CompletionRequest -> FetchResult)
      (req : Request) (t : list Event) :
  (exists e t', turn fetch req t = (Thrown e, t')) \/
  (exists text t', turn fetch req t = (Returned (Reply (aiMessage (message (json req)) text)), t')).
Proof.
  destruct (turn_trace fetch req t) as (o & rest & Ht & _ & _ & [[e He] | [text He]]);
    rewrite Ht, He; [left | right]; eexists _, _; reflexivity.
Qed.

Lemma invoke_thrown (body : RequestBody) (w : World) (e : Error) (t' : list Event) :
  turn (fetch env) (postRequest body) (serverEvents w) = (Thrown e, t') ->
  invoke env body w =
    (Returned (InvokeError functionsHttpError),
     recordInvocation body (t' ++ [ConsoleError "Error in chat function:"]) w).
Proof.
  intros Ht. unfold invoke.
  rewrite (serve_not_options _ (postRequest body) _ eq_refl), Ht. reflexivity.
Qed.

Lemma invoke_replied (body : RequestBody) (w : World) (m : Message) (t' : list Event) :
  turn (fetch env) (postRequest body) (serverEvents w) = (Returned (Reply m), t') ->
  invoke env body w = (Returned (InvokeData (Some m)), recordInvocation body t' w).
Proof.
  intros Ht. unfold invoke.
  rewrite (serve_not_options _ (postRequest body) _ eq_refl), Ht. reflexivity.
Qed.

(** [handleResponse], case by case. *)
Lemma handleResponse_session_error (messages : list Message) (userMessage : string)
      (w : World) (e : Error) :
  getSession env = SessionError e ->
  handleResponse env messages userMessage w = failed e w.
Proof.
  intros Hs. unfold handleResponse, handleResponseTry, tryFinally, tryCatch.
  rewrite Hs. reflexivity.
Qed.

Lemma handleResponse_no_session (messages : list Message) (userMessage : string)
      (w : World) :
  getSession env = NoSession ->
  handleResponse env messages userMessage w = setIsLoading false (toast signInNotice w).
Proof.
  intros Hs. unfold handleResponse, handleResponseTry, tryFinally, tryCatch.
  rewrite Hs. reflexivity.
Qed.

Lemma handleResponse_insert_error (messages : list Message) (userMessage : string)
      (w : World) (userId : string) (e : Error) :
  getSession env = Session userId ->
  insertError env (userRow userMessage userId) = Some e ->
  handleResponse env messages userMessage w = failed e w.
Proof.
  intros Hs Hi.
  unfold handleResponse, handleResponseTry, tryFinally, tryCatch, bind, insert.
  rewrite Hs. fold (userRow userMessage userId). rewrite Hi. reflexivity.
Qed.

Lemma handleResponse_invoke_error (messages : list Message) (userMessage : string)
      (w : World) (userId : string) (e : Error) (t' : list Event) :
  getSession env = Session userId ->
  insertError env (userRow userMessage userId) = None ->
  turn (fetch env)
       (postRequest {| message := userMessage; context := sliceLast 5 messages |})
       (serverEvents w) = (Thrown e, t') ->
  handleResponse env messages userMessage w =
    failed functionsHttpError
      (recordInvocation {| message := userMessage; context := sliceLast 5 messages |}
         (t' ++ [ConsoleError "Error in chat function:"])
         (appendRow (userRow userMessage userId) w)).
Proof.
  intros Hs Hi Ht.
  unfold handleResponse, handleResponseTry. rewrite Hs.
  cbv beta iota delta [tryFinally tryCatch bind insert].
  fold (userRow userMessage userId). rewrite Hi.
  cbv beta iota delta [bind modify ret].
  rewrite (invoke_thrown _ _ e t') by exact Ht.
  reflexivity.
Qed.

Lemma handleResponse_replied (messages : list Message) (userMessage : string)
      (w : World) (userId : string) (m : Message) (t' : list Event) :
  getSession env = Session userId ->
  insertError env (userRow userMessage userId) = None ->
  turn (fetch env)
       (postRequest {| message := userMessage; context := sliceLast 5 messages |})
       (serverEvents w) = (Returned (Reply m), t') ->
  handleResponse env messages userMessage w =
    let w2 := recordInvocation {| message := userMessage; context := sliceLast 5 messages |}
                t' (appendRow (userRow userMessage userId) w) in
    match insertError env (botRow (content m)) with
    | Some e => failed e w2
    | None =>
        setIsLoading false
          (setMessages (fun prev => prev ++ [userEntry userMessage; m])
             (appendRow (botRow (content m)) w2))
    end.
Proof.
  intros Hs Hi Ht.
  unfold handleResponse, handleResponseTry. rewrite Hs.
  cbv beta iota delta [tryFinally tryCatch bind insert].
  fold (userRow userMessage userId). rewrite Hi.
  cbv beta iota delta [bind modify ret].
  rewrite (invoke_replied _ _ m t') by exact Ht.
  fold (botRow (content m)).
  destruct (insertError env (botRow (content m))); reflexivity.
Qed.

End WidgetFacts.

Section TurnClaims.
Import Js Chat NovaChat Wording.

Variable autocorrect : string -> string.
Variable env : Env.

(** A failed call to the endpoint makes the turn of the edge function
    throw. *)
Lemma upstreamFails_turn_throws (body : RequestBody) (t : list Event) :
  upstreamFails (fetch env completionsUrl
                   (completionRequest (context body) (message body))) ->
  exists e t', turn (fetch env) {| method := "POST"; json := body |} t = (Thrown e, t').
Proof.
  intros Hu.
  destruct (fetch env completionsUrl (completionRequest (context body) (message body)))
    as [e|r] eqn:Hf; cbn in Hu.
  - eexists _, _. apply turn_rejected. exact Hf.
  - destruct (responseBody r) as [e|j] eqn:Hb.
    + eexists _, _.
      apply (turn_unparsable _ {| method := "POST"; json := body |} t r e Hf Hb).
    + destruct (ok r) eqn:Hok.
      * destruct Hu as [Hu | Hu]; [discriminate|].
        unfold upstreamJson in Hu. rewrite Hb in Hu.
        exists undefinedMessageError. eexists.
        rewrite (turn_ok _ {| method := "POST"; json := body |} t r j Hf Hok Hb), Hu.
        reflexivity.
      * eexists _, _.
        apply (turn_not_ok _ {| method := "POST"; json := body |} t r j Hf Hok Hb).
Qed.

(** C4. When the user message has been written and the call to the model
    then fails, the store holds the rows it held before and the user
    row, in that order: no bot row is written and the user row is
    neither removed nor changed. The log of the widget is as it was and
    the fixed failure notice is shown. *)
Theorem upstream_failure_keeps_user_row (messages : list Message)
        (userMessage userId : string) (w : World) :
  getSession env = Session userId ->
  insertError env (userRow userMessage userId) = None ->
  upstreamFails (fetch env completionsUrl
                   (completionRequest (sliceLast 5 messages) userMessage)) ->
  let w' := handleResponse env messages userMessage w in
  chat_messages w' = chat_messages w ++ [userRow userMessage userId] /\
  NovaChat.messages w' = NovaChat.messages w /\
  toasts w' = toasts w ++ [failureNotice] /\
  isLoading w' = false.
Proof.
  intros Hs Hi Hu.
  destruct (upstreamFails_turn_throws
              {| message := userMessage; context := sliceLast 5 messages |}
              (serverEvents w) Hu) as (e & t' & Ht).
  cbn zeta. rewrite (handleResponse_invoke_error _ _ _ _ _ e t' Hs Hi Ht).
  repeat split.
Qed.

(** C5. Without a session the turn ends at once with the sign-in notice:
    no row is written, the edge function is not invoked and no request
    reaches the endpoint; the log is as it was. *)
Theorem no_session_short_circuits (messages : list Message) (userMessage : string)
        (w : World) :
  getSession env = NoSession ->
  let w' := handleResponse env messages userMessage w in
  toasts w' = toasts w ++ [signInNotice] /\
  chat_messages w' = chat_messages w /\
  invocations w' = invocations w /\
  serverEvents w' = serverEvents w /\
  NovaChat.messages w' = NovaChat.messages w /\
  console w' = console w /\
  isLoading w' = false.
Proof.
  intros Hs. cbn zeta. rewrite (handleResponse_no_session _ _ _ _ Hs).
  repeat split.
Qed.

(** When the session provider reports an error the turn fails with the
    fixed notice; it writes and invokes nothing either. *)
Lemma session_error_fails (messages : list Message) (userMessage : string)
      (w : World) (e : Error) :
  getSession env = SessionError e ->
  let w' := handleResponse env messages userMessage w in
  toasts w' = toasts w ++ [failureNotice] /\
  chat_messages w' = chat_messages w /\
  invocations w' = invocations w /\
  serverEvents w' = serverEvents w.
Proof.
  intros Hs. cbn zeta. rewrite (handleResponse_session_error _ _ _ _ _ Hs).
  repeat split.
Qed.

Lemma handleResponse_success (messages : list Message) (userMessage modelText : string)
      (w : World) :
  turnSucceeds env messages userMessage modelText ->
  NovaChat.messages (handleResponse env messages userMessage w) =
    NovaChat.messages w ++ [userEntry userMessage; aiMessage userMessage modelText].
Proof.
  intros (userId & r & c & rest & Hs & Hi & Hf & Hok & Hc & Ht & Hb).
  pose proof (turn_first_completion (fetch env)
                {| method := "POST";
                   json := {| message := userMessage; context := sliceLast 5 messages |} |}
                (serverEvents w) r c rest Hf Hok Hc) as Hturn.
  rewrite Ht in Hturn.
  rewrite (handleResponse_replied _ _ _ _ _ _ _ Hs Hi Hturn).
  cbn zeta. cbn [content aiMessage]. rewrite Hb. reflexivity.
Qed.

(** C9. When the turn goes through, a click on a quick-reply option
    leaves the option's text in the log twice, as two user entries with
    that text, followed by the reply: once from [handleOptionClick],
    once from [handleResponse]. A message sent from the input box, in a
    turn that goes through, is in the log once, as one user entry with
    the (corrected) text, followed by the reply. *)
Theorem option_click_appends_twice (w : World) :
  (forall option modelText,
     turnSucceeds env (NovaChat.messages w) option modelText ->
     NovaChat.messages (clickOption env option w) =
       NovaChat.messages w ++
       [ {| type := user; content := option; options := None |};
         {| type := user; content := option; options := None |};
         {| type := bot; content := modelText;
            options := Some (optionsFor option) |} ]) /\
  (forall modelText,
     whitespaceOnly (input w) = false ->
     isLoading w = false ->
     turnSucceeds env (NovaChat.messages w) (autocorrect (input w)) modelText ->
     NovaChat.messages (send autocorrect env w) =
       NovaChat.messages w ++
       [ {| type := user; content := autocorrect (input w); options := None |};
         {| type := bot; content := modelText;
            options := Some (optionsFor (autocorrect (input w))) |} ]).
Proof.
  split.
  - intros option modelText Hok. unfold clickOption, handleOptionClick.
    rewrite (handleResponse_success _ _ modelText _ Hok).
    cbn [NovaChat.messages setMessages]. now rewrite <- app_assoc.
  - intros modelText Hin Hbusy Hok. unfold send, handleSend.
    rewrite trim_falsy, Hin, Hbusy. cbn [orb].
    rewrite (handleResponse_success _ _ modelText _ Hok).
    destruct (String.eqb (autocorrect (input w)) (input w)); reflexivity.
Qed.

(** C10. With an input that is empty or all white space, or while a
    request is in flight, [handleSend] does nothing: the world it
    returns is the world it was given (no notice, no row, no invocation,
    same log, same input). *)
Theorem handleSend_blank_or_busy (messages : list Message) (input : string)
        (isLoading : bool) (w : World) :
  whitespaceOnly input = true \/ isLoading = true ->
  handleSend autocorrect env messages input isLoading w = w.
Proof.
  intros H. unfold handleSend. rewrite trim_falsy.
  destruct H as [-> | ->]; [reflexivity | now rewrite orb_true_r].
Qed.

End TurnClaims.

Section StoredRoles.
Import Js Chat NovaChat Wording Events.

Lemma conversationHistory_system (context : list Message) (message : string) :
  systemOnlyAtHead (conversationHistory context message).
Proof.
  exists (map formatMessage context ++ [ {| role := userRole; roleContent := message |} ]).
  split; [reflexivity|].
  apply Forall_app. split.
  - induction context as [|m context IH]; constructor; [|exact IH].
    unfold formatMessage. cbn. destruct (type m); discriminate.
  - constructor; [cbn; discriminate | constructor].
Qed.

Lemma message_user_or_bot (m : Message) : type m = user \/ type m = bot.
Proof. destruct (type m); auto. Qed.

Lemma rolesInvariant_handleResponse (env : Env) (messages : list Message)
      (userMessage : string) (w : World) :
  rolesInvariant w -> rolesInvariant (handleResponse env messages userMessage w).
Proof.
  intros (Hrows & Hlog & Hreq).
  assert (Hall : forall l : list Message, Forall (fun m => type m = user \/ type m = bot) l).
  { intros l. induction l; constructor; auto using message_user_or_bot. }
  destruct (getSession env) as [e| |userId] eqn:Hs.
  - rewrite (handleResponse_session_error _ _ _ _ _ Hs). now repeat split.
  - rewrite (handleResponse_no_session _ _ _ _ Hs). now repeat split.
  - destruct (insertError env (userRow userMessage userId)) as [e|] eqn:Hi.
    + rewrite (handleResponse_insert_error _ _ _ _ _ _ Hs Hi). now repeat split.
    + set (body := {| message := userMessage; context := sliceLast 5 messages |}).
      pose proof (turn_fetches_once (fetch env) {| method := "POST"; json := body |}
                    (serverEvents w)) as Honce.
      assert (Hreq' : forall t',
                 fetches t' =
                 fetches (serverEvents w) ++ [completionRequest (sliceLast 5 messages) userMessage] ->
                 Forall (fun q => systemOnlyAtHead (Chat.messages q)) (fetches t')).
      { intros t' ->. apply Forall_app. split; [exact Hreq|].
        constructor; [apply conversationHistory_system | constructor]. }
      assert (Huser : Forall userOrBot (chat_messages w ++ [userRow userMessage userId])).
      { apply Forall_app. split; [exact Hrows|]. constructor; [now left | constructor]. }
      destruct (turn_outcome (fetch env) {| method := "POST"; json := body |} (serverEvents w))
        as [(e & t' & Ht) | (text & t' & Ht)]; rewrite Ht in Honce; cbn [snd] in Honce.
      * rewrite (handleResponse_invoke_error _ _ _ _ _ e t' Hs Hi Ht).
        split; [exact Huser|]. split; [apply Hall|].
        cbn. apply Hreq'. rewrite fetches_app, Honce. cbn. now rewrite app_nil_r.
      * rewrite (handleResponse_replied _ _ _ _ _ _ t' Hs Hi Ht). cbn zeta.
        match goal with
        | |- context [insertError env ?row] => destruct (insertError env row)
        end.
        -- split; [exact Huser|]. split; [apply Hall|]. cbn. now apply Hreq'.
        -- split; [|split; [apply Hall|cbn; now apply Hreq']].
           cbn. apply Forall_app. split; [exact Huser|]. constructor; [now right | constructor].
Qed.

Lemma rolesInvariant_step (autocorrect : string -> string) (w : World)
      (turn : Env * UiEvent) :
  rolesInvariant w -> rolesInvariant (step autocorrect w turn).
Proof.
  intros Hw. destruct turn as [env [option| |text]]; unfold step; cbn [fst snd].
  - unfold clickOption, handleOptionClick. apply rolesInvariant_handleResponse.
    destruct Hw as (Hrows & Hlog & Hreq). repeat split; try assumption.
    cbn. apply Forall_app. split; [exact Hlog|]. constructor; [now left | constructor].
  - unfold send, handleSend.
    destruct (negb (truthy (trim (input w))) || isLoading w); [exact Hw|].
    apply rolesInvariant_handleResponse.
    destruct (String.eqb (autocorrect (input w)) (input w)); exact Hw.
  - exact Hw.
Qed.

Lemma rolesInvariant_run (autocorrect : string -> string) (turns : list (Env * UiEvent))
      (w : World) :
  rolesInvariant w -> rolesInvariant (run autocorrect turns w).
Proof.
  revert w. induction turns as [|turn turns IH]; intros w Hw; [exact Hw|].
  cbn. apply IH. now apply rolesInvariant_step.
Qed.

(** C7. After any sequence of events, each handled in the environment of
    its turn, every row of the message table has type "user" or "bot"
    and every entry of the widget's log has type user or bot; a system
    entry occurs only at the head of the context sequences sent to the
    endpoint, which every call assembles anew. *)
Theorem system_directive_never_stored (autocorrect : string -> string)
        (turns : list (Env * UiEvent)) :
  let w := run autocorrect turns initialWorld in
  Forall userOrBot (chat_messages w) /\
  Forall (fun m => type m = user \/ type m = bot) (NovaChat.messages w) /\
  Forall (fun q => systemOnlyAtHead (Chat.messages q)) (fetches (serverEvents w)) /\
  (forall context message, systemOnlyAtHead (conversationHistory context message)).
Proof.
  cbn zeta.
  assert (H0 : rolesInvariant initialWorld).
  { repeat split; cbn; constructor; [now right | constructor]. }
  destruct (rolesInvariant_run autocorrect turns _ H0) as (Hrows & Hlog & Hreq).
  repeat split; try assumption. apply conversationHistory_system.
Qed.

End StoredRoles.

Section WidgetExamples.
Import Js Chat NovaChat Wording Events Fixtures.

Lemma upstream_failure_keeps_user_row_witness :
  getSession (envOf (Session "u1") (upstreamError (Some "Insufficient Balance")))
    = Session "u1" /\
  insertError (envOf (Session "u1") (upstreamError (Some "Insufficient Balance")))
    (userRow "Learn about flood risks" "u1") = None /\
  upstreamFails
    (fetch (envOf (Session "u1") (upstreamError (Some "Insufficient Balance")))
       completionsUrl
       (completionRequest (sliceLast 5 initialMessages) "Learn about flood risks")) /\
  (let w' := handleResponse
               (envOf (Session "u1") (upstreamError (Some "Insufficient Balance")))
               initialMessages "Learn about flood risks" initialWorld in
   chat_messages w' =
     chat_messages initialWorld ++ [userRow "Learn about flood risks" "u1"] /\
   NovaChat.messages w' = NovaChat.messages initialWorld /\
   toasts w' = toasts initialWorld ++ [failureNotice] /\
   isLoading w' = false).
Proof.
  split; [reflexivity|]. split; [reflexivity|]. split; [left; reflexivity|].
  apply (upstream_failure_keeps_user_row
           (envOf (Session "u1") (upstreamError (Some "Insufficient Balance")))
           initialMessages "Learn about flood risks" "u1" initialWorld);
    [reflexivity | reflexivity | left; reflexivity].
Defined.

Lemma no_session_short_circuits_witness :
  getSession (envOf NoSession (upstreamReply "Floods rise fast.")) = NoSession /\
  (let w' := handleResponse (envOf NoSession (upstreamReply "Floods rise fast."))
               initialMessages "Learn about flood risks" initialWorld in
   toasts w' = toasts initialWorld ++ [signInNotice] /\
   chat_messages w' = chat_messages initialWorld /\
   invocations w' = invocations initialWorld /\
   serverEvents w' = serverEvents initialWorld /\
   NovaChat.messages w' = NovaChat.messages initialWorld /\
   console w' = console initialWorld /\
   isLoading w' = false).
Proof.
  split; [reflexivity|].
  apply (no_session_short_circuits (envOf NoSession (upstreamReply "Floods rise fast."))
           initialMessages "Learn about flood risks" initialWorld).
  reflexivity.
Defined.

Lemma turnSucceeds_sample (messages : list Message) (userMessage modelText : string) :
  turnSucceeds (envOf (Session "u1") (upstreamReply modelText)) messages userMessage modelText.
Proof.
  exists "u1", (upstreamReply modelText),
         {| choiceMessage := {| choiceContent := modelText |} |}, [].
  repeat split.
Qed.

Lemma option_click_appends_twice_witness :
  turnSucceeds (envOf (Session "u1") (upstreamReply "Floods rise fast."))
    initialMessages "Learn about flood risks" "Floods rise fast." /\
  NovaChat.messages
    (clickOption (envOf (Session "u1") (upstreamReply "Floods rise fast."))
       "Learn about flood risks" initialWorld) =
    initialMessages ++
    [ {| type := user; content := "Learn about flood risks"; options := None |};
      {| type := user; content := "Learn about flood risks"; options := None |};
      {| type := bot; content := "Floods rise fast.";
         options := Some (optionsFor "Learn about flood risks") |} ] /\
  NovaChat.messages
    (send (fun s => s) (envOf (Session "u1") (upstreamReply "Floods rise fast."))
       (setInput "What are flood risks?" initialWorld)) =
    initialMessages ++
    [ {| type := user; content := "What are flood risks?"; options := None |};
      {| type := bot; content := "Floods rise fast.";
         options := Some (optionsFor "What are flood risks?") |} ].
Proof.
  split; [apply turnSucceeds_sample|].
  split.
  - apply (proj1 (option_click_appends_twice (fun s => s)
                    (envOf (Session "u1") (upstreamReply "Floods rise fast."))
                    initialWorld)).
    apply turnSucceeds_sample.
  - apply (proj2 (option_click_appends_twice (fun s => s)
                    (envOf (Session "u1") (upstreamReply "Floods rise fast."))
                    (setInput "What are flood risks?" initialWorld))
             "Floods rise fast."); [reflexivity | reflexivity |].
    apply turnSucceeds_sample.
Defined.

Lemma handleSend_blank_or_busy_witness :
  (whitespaceOnly "   " = true \/ false = true) /\
  handleSend (fun s => s) (envOf (Session "u1") (upstreamReply "Floods rise fast."))
    initialMessages "   " false initialWorld = initialWorld.
Proof.
  split; [left; reflexivity|].
  apply (handleSend_blank_or_busy (fun s => s)
           (envOf (Session "u1") (upstreamReply "Floods rise fast."))
           initialMessages "   " false initialWorld).
  left; reflexivity.
Defined.

(** A request in flight blocks a send even when the input has text. *)
Example handleSend_busy :
  handleSend (fun s => s) (envOf (Session "u1") (upstreamReply "Floods rise fast."))
    initialMessages "What are flood risks?" true initialWorld = initialWorld.
Proof. reflexivity. Qed.

(** [slice(-5)] keeps the last five entries. *)
Example sliceLast_five : sliceLast 5 [1; 2; 3; 4; 5; 6; 7] = [3; 4; 5; 6; 7].
Proof. reflexivity. Qed.

Example sliceLast_short : sliceLast 5 [1; 2] = [1; 2].
Proof. reflexivity. Qed.

End WidgetExamples.

(** ** Further properties of the edge function *)

Section EdgeFunction.
Import Js Chat Wording.

Variable fetch : string -> CompletionRequest -> FetchResult.

Local Abbreviation requestOf req :=
  (completionRequest (context (json req)) (message (json req))).

Lemma turn_appends (req : Request) (t : list Event) :
  turn fetch req t = (fst (turn fetch req []), t ++ snd (turn fetch req [])).
Proof.
  destruct (turn_trace fetch req t) as (o & rest & _ & _ & Hall & _).
  now rewrite (Hall t), (Hall []).
Qed.

(** X2. No request makes the edge function call the endpoint more than
    once: what a request adds to the requests sent is nothing or the one
    request built from its own message and context. A preflight request
    adds nothing: it is answered at once, with no console output and no
    call to the endpoint. *)
Theorem serve_requests_at_most_once (req : Request) (t : list Event) :
  (exists sent,
     fetches (snd (serve fetch req t)) = fetches t ++ sent /\
     (sent = [] \/ sent = [requestOf req])) /\
  (String.eqb (method req) "OPTIONS" = true ->
   serve fetch req t = (Returned Preflight, t)).
Proof.
  destruct (String.eqb (method req) "OPTIONS") eqn:Hm.
  - unfold serve. rewrite Hm. split; [|reflexivity].
    exists []. cbn. rewrite app_nil_r. auto.
  - split; [|discriminate].
    exists [requestOf req]. split; [now apply serve_fetches_once | now right].
Qed.

(** X3. No exception leaves the edge function: every request gets a
    response, with status 200 or 500, with both CORS headers, and, when
    it is an error response, with the fixed notice in its [error] field. *)
Theorem serve_always_answers (req : Request) (t : list Event) :
  exists r,
    fst (serve fetch req t) = Returned r /\
    (status r = 200 \/ status r = 500) /\
    (forall h, In h corsHeaders -> In h (headers r)) /\
    (forall e d, r = Failure e d ->
       e = "Failed to get response. Please try again." /\ status r = 500).
Proof.
  assert (Hgen : forall r,
             (forall e d, r = Failure e d -> e = "Failed to get response. Please try again.") ->
             (status r = 200 \/ status r = 500) /\
             (forall h, In h corsHeaders -> In h (headers r)) /\
             (forall e d, r = Failure e d ->
                e = "Failed to get response. Please try again." /\ status r = 500)).
  { intros r Hr. split; [destruct r; cbn; auto|]. split.
    - intros h Hh. destruct r; cbn [headers]; [exact Hh| |]; apply in_or_app; now left.
    - intros e d ->. split; [now apply (Hr e d)|reflexivity]. }
  destruct (String.eqb (method req) "OPTIONS") eqn:Hm.
  - exists Preflight. unfold serve. rewrite Hm. split; [reflexivity|].
    apply Hgen. discriminate.
  - rewrite (serve_not_options _ _ _ Hm).
    destruct (turn_outcome fetch req t) as [(e & t' & Ht) | (text & t' & Ht)]; rewrite Ht.
    + eexists. split; [reflexivity|]. apply Hgen. now intros e0 d [= <- _].
    + eexists. split; [reflexivity|]. apply Hgen. discriminate.
Qed.

(** X4. When the endpoint answers with success and at least one
    completion, the response is the reply built from the first
    completion: bot type, that completion's text, the options for the
    user's message, status 200. Further completions are not used. *)
Theorem serve_uses_first_completion (req : Request) (t : list Event)
        (r : UpstreamResponse) (c : Choice) (rest : list Choice) :
  String.eqb (method req) "OPTIONS" = false ->
  fetch completionsUrl (requestOf req) = Resolved r ->
  ok r = true ->
  choices (upstreamJson r) = c :: rest ->
  fst (serve fetch req t) =
    Returned (Reply {| type := bot;
                       content := choiceContent (choiceMessage c);
                       options := Some (optionsFor (message (json req))) |}) /\
  status (Reply (aiMessage (message (json req)) (choiceContent (choiceMessage c)))) = 200.
Proof.
  intros Hm Hf Hok Hc.
  rewrite (serve_not_options _ _ _ Hm), (turn_first_completion _ _ _ _ _ _ Hf Hok Hc).
  split; reflexivity.
Qed.

(** X6. When [fetch] itself fails (no response from the endpoint), the
    response is the error response with status 500 whose [details] are
    the message of that failure; one request was attempted. *)
Theorem serve_fetch_rejected (req : Request) (t : list Event) (e : Error) :
  String.eqb (method req) "OPTIONS" = false ->
  fetch completionsUrl (requestOf req) = Rejected e ->
  serve fetch req t =
    (Returned (Failure "Failed to get response. Please try again." (errorMessage e)),
     t ++ [ConsoleLog "Received message:"; ConsoleLog "Context:";
           Fetched completionsUrl (requestOf req);
           ConsoleError "Error in chat function:"]) /\
  status (Failure "Failed to get response. Please try again." (errorMessage e)) = 500.
Proof.
  intros Hm Hf. rewrite (serve_not_options _ _ _ Hm), (turn_rejected _ _ _ _ Hf).
  split; [|reflexivity]. now rewrite <- app_assoc.
Qed.

End EdgeFunction.

Section ContextAndOptions.
Import Js Chat Wording.

(** What [formatMessage] keeps of a message: its type and its content. *)
Lemma formatMessage_injective (a b : Message) :
  formatMessage a = formatMessage b -> type a = type b /\ content a = content b.
Proof.
  unfold formatMessage. intros [= Hr Hc]. split; [|exact Hc].
  destruct (type a), (type b); (reflexivity || discriminate).
Qed.

Lemma map_formatMessage_injective (H1 H2 : list Message) :
  map formatMessage H1 = map formatMessage H2 ->
  map (fun m => (type m, content m)) H1 = map (fun m => (type m, content m)) H2.
Proof.
  revert H2. induction H1 as [|a H1 IH]; intros [|b H2]; cbn [map];
    try discriminate; auto.
  intros Heq.
  assert (Hab : formatMessage a = formatMessage b) by congruence.
  assert (Hrest : map formatMessage H1 = map formatMessage H2) by congruence.
  apply formatMessage_injective in Hab as [-> ->].
  now rewrite (IH _ Hrest).
Qed.

(** X8. The role mapping loses nothing but the option lists: two calls
    that build the same context sequence had the same new message and
    histories with the same types and contents, entry by entry. *)
Theorem conversationHistory_injective (H1 H2 : list Message) (m1 m2 : string) :
  conversationHistory H1 m1 = conversationHistory H2 m2 ->
  m1 = m2 /\
  map (fun m => (type m, content m)) H1 = map (fun m => (type m, content m)) H2.
Proof.
  rewrite !conversationHistory_eq. intros [= H].
  apply app_inj_tail in H as [Hmap [= ->]].
  split; [reflexivity|]. now apply map_formatMessage_injective.
Qed.

Lemma conversationHistory_injective_witness :
  conversationHistory Fixtures.sampleHistory "hello"
    = conversationHistory Samples.bareHistory "hello" /\
  "hello" = "hello" /\
  map (fun m => (type m, content m)) Fixtures.sampleHistory
    = map (fun m => (type m, content m)) Samples.bareHistory.
Proof.
  split; [reflexivity|].
  apply (conversationHistory_injective Fixtures.sampleHistory Samples.bareHistory
           "hello" "hello").
  reflexivity.
Defined.

End ContextAndOptions.

(** ** Further properties of the widget *)

Section TurnEffects.
Import Js Chat NovaChat Wording Table.

Variable env : Env.

(** What one run of [handleResponse] adds to the world. There are four
    shapes: the sign-in notice alone; a failure before anything was
    written; a failure after the user row was written and the edge
    function invoked; the full turn. *)
Lemma handleResponse_effects (messages : list Message) (userMessage : string) (w : World) :
  let w' := handleResponse env messages userMessage w in
  let body := {| message := userMessage; context := sliceLast 5 messages |} in
  input w' = input w /\
  isLoading w' = false /\
  exists ms rows ts cs invs evs,
    NovaChat.messages w' = NovaChat.messages w ++ ms /\
    chat_messages w' = chat_messages w ++ rows /\
    toasts w' = toasts w ++ ts /\
    console w' = console w ++ cs /\
    invocations w' = invocations w ++ invs /\
    serverEvents w' = serverEvents w ++ evs /\
    ((getSession env = NoSession /\
      ms = [] /\ rows = [] /\ invs = [] /\ evs = [] /\ ts = [signInNotice] /\ cs = []) \/
     ((forall userId, getSession env = Session userId ->
         exists e, insertError env (userRow userMessage userId) = Some e) /\
      getSession env <> NoSession /\
      ms = [] /\ rows = [] /\ invs = [] /\ evs = [] /\ ts = [failureNotice] /\
      exists e, cs = [e]) \/
     (exists userId,
        getSession env = Session userId /\
        ms = [] /\ rows = [userRow userMessage userId] /\ invs = [body] /\
        fetches evs = [completionRequest (sliceLast 5 messages) userMessage] /\
        ts = [failureNotice] /\ exists e, cs = [e]) \/
     (exists userId text,
        getSession env = Session userId /\
        ms = [userEntry userMessage; aiMessage userMessage text] /\
        rows = [userRow userMessage userId; botRow text] /\ invs = [body] /\
        fetches evs = [completionRequest (sliceLast 5 messages) userMessage] /\
        ts = [] /\ cs = [])).
Proof.
  cbn zeta.
  set (body := {| message := userMessage; context := sliceLast 5 messages |}).
  set (req := {| method := "POST"; json := body |}).
  destruct (getSession env) as [e| |userId] eqn:Hs.
  - rewrite (handleResponse_session_error _ _ _ _ _ Hs).
    split; [reflexivity|]. split; [reflexivity|].
    exists [], [], [failureNotice], [e], [], [].
    cbn. rewrite !app_nil_r. repeat (split; [reflexivity|]).
    right; left. repeat split; try discriminate; eauto.
  - rewrite (handleResponse_no_session _ _ _ _ Hs).
    split; [reflexivity|]. split; [reflexivity|].
    exists [], [], [signInNotice], [], [], [].
    cbn. rewrite !app_nil_r. repeat (split; [reflexivity|]).
    left. repeat split.
  - destruct (insertError env (userRow userMessage userId)) as [e|] eqn:Hi.
    + rewrite (handleResponse_insert_error _ _ _ _ _ _ Hs Hi).
      split; [reflexivity|]. split; [reflexivity|].
      exists [], [], [failureNotice], [e], [], [].
      cbn. rewrite !app_nil_r. repeat (split; [reflexivity|]).
      right; left. repeat split; try discriminate; eauto.
      intros u [= <-]. eauto.
    + pose proof (turn_appends (fetch env) req (serverEvents w)) as Happ.
      pose proof (turn_fetches_once (fetch env) req []) as Honce.
      change (fetches (snd (turn (fetch env) req [])) =
              [completionRequest (sliceLast 5 messages) userMessage]) in Honce.
      set (evs0 := snd (turn (fetch env) req [])) in Happ, Honce. clearbody evs0.
      destruct (turn_outcome (fetch env) req (serverEvents w))
        as [(e & t' & Ht) | (text & t' & Ht)];
        rewrite Ht in Happ; injection Happ as Hfst Ht'.
      * rewrite (handleResponse_invoke_error _ _ _ _ _ e t' Hs Hi Ht).
        split; [reflexivity|]. split; [reflexivity|].
        exists [], [userRow userMessage userId], [failureNotice], [functionsHttpError],
               [body],
               (evs0 ++ [ConsoleError "Error in chat function:"]).
        cbn. rewrite Ht', app_nil_r, <- app_assoc.
        repeat (split; [reflexivity|]).
        right; right; left. exists userId.
        repeat (split; [reflexivity|]). split; [|eauto].
        rewrite fetches_app, Honce. reflexivity.
      * rewrite (handleResponse_replied _ _ _ _ _ _ t' Hs Hi Ht). cbn zeta.
        cbn [json message content aiMessage req body].
        destruct (insertError env (botRow text)) as [e|] eqn:Hb.
        -- split; [reflexivity|]. split; [reflexivity|].
           exists [], [userRow userMessage userId], [failureNotice], [e], [body],
                  evs0.
           cbn. rewrite Ht', app_nil_r.
           repeat (split; [reflexivity|]).
           right; right; left. exists userId.
           repeat (split; [reflexivity|]). split; [exact Honce|eauto].
        -- split; [reflexivity|]. split; [reflexivity|].
           exists [userEntry userMessage; aiMessage userMessage text],
                  [userRow userMessage userId; botRow text], [], [], [body],
                  evs0.
           cbn. rewrite Ht', !app_nil_r, <- app_assoc.
           repeat (split; [reflexivity|]).
           right; right; right. exists userId, text.
           repeat (split; [reflexivity|]). split; [exact Honce|]. split; reflexivity.
Qed.

End TurnEffects.

Section TurnOutcomes.
Import Js Chat NovaChat Wording Table.

Variable env : Env.

(** X10. A turn never ends silently and never leaves the widget busy:
    after [handleResponse] the busy flag is cleared and the input is as
    it was, and either the user's message and a bot reply were added to
    the log and no notice was shown, or the log is unchanged and exactly
    one notice was shown, the sign-in notice or the failure notice. *)
Theorem turn_reply_or_notice (messages : list Message) (userMessage : string) (w : World) :
  let w' := handleResponse env messages userMessage w in
  isLoading w' = false /\
  input w' = input w /\
  ((exists text,
      NovaChat.messages w' =
        NovaChat.messages w ++
        [ {| type := user; content := userMessage; options := None |};
          {| type := bot; content := text; options := Some (optionsFor userMessage) |} ] /\
      toasts w' = toasts w) \/
   (NovaChat.messages w' = NovaChat.messages w /\
    (toasts w' = toasts w ++ [signInNotice] \/ toasts w' = toasts w ++ [failureNotice]))).
Proof.
  destruct (handleResponse_effects env messages userMessage w)
    as (Hin & Hbusy & ms & rows & ts & cs & invs & evs &
        Hm & Hr & Ht & Hc & Hi & He & Hshape).
  cbn zeta. split; [exact Hbusy|]. split; [exact Hin|].
  rewrite Hm, Ht.
  destruct Hshape as [H | [H | [H | H]]].
  - destruct H as (_ & -> & _ & _ & _ & -> & _). right. rewrite app_nil_r. auto.
  - destruct H as (_ & _ & -> & _ & _ & _ & -> & _). right. rewrite app_nil_r. auto.
  - destruct H as (u & _ & -> & _ & _ & _ & -> & _). right. rewrite app_nil_r. auto.
  - destruct H as (u & text & _ & -> & _ & _ & _ & -> & _). left. exists text.
    now rewrite app_nil_r.
Qed.

(** X11. A reply is shown only after it was stored: whenever
    [handleResponse] adds a reply to the log, the table has gained the
    user row and the bot row with the same texts, in that order. *)
Theorem reply_shown_only_if_stored (messages : list Message) (userMessage text : string)
        (w : World) :
  NovaChat.messages (handleResponse env messages userMessage w) =
    NovaChat.messages w ++ [userEntry userMessage; aiMessage userMessage text] ->
  exists userId,
    getSession env = Session userId /\
    chat_messages (handleResponse env messages userMessage w) =
      chat_messages w ++ [userRow userMessage userId; botRow text].
Proof.
  destruct (handleResponse_effects env messages userMessage w)
    as (_ & _ & ms & rows & ts & cs & invs & evs &
        Hm & Hr & _ & _ & _ & _ & Hshape).
  cbn zeta in *. rewrite Hm, Hr. intros Heq. apply app_inv_head in Heq.
  destruct Hshape as [H | [H | [H | H]]].
  - destruct H as (_ & -> & _). discriminate.
  - destruct H as (_ & _ & -> & _). discriminate.
  - destruct H as (u & _ & -> & _). discriminate.
  - destruct H as (u & text' & Hs & -> & -> & _).
    injection Heq as Htext. exists u. split; [exact Hs|]. now rewrite Htext.
Qed.

(** X12. When the session provider reports an error, the turn fails at
    once: the error goes to the console, the failure notice is shown,
    and nothing is written, invoked or fetched; the log is unchanged. *)
Theorem session_error_stops_turn (messages : list Message) (userMessage : string)
        (w : World) (e : Error) :
  getSession env = SessionError e ->
  let w' := handleResponse env messages userMessage w in
  console w' = console w ++ [e] /\
  toasts w' = toasts w ++ [failureNotice] /\
  chat_messages w' = chat_messages w /\
  invocations w' = invocations w /\
  serverEvents w' = serverEvents w /\
  NovaChat.messages w' = NovaChat.messages w /\
  isLoading w' = false.
Proof.
  intros Hs. cbn zeta. rewrite (handleResponse_session_error _ _ _ _ _ Hs).
  repeat split.
Qed.

(** X13. When the store refuses the user row, the turn fails before the
    model is asked: the store's error goes to the console, the failure
    notice is shown, the edge function is not invoked and no request
    reaches the endpoint; table and log are unchanged. *)
Theorem user_insert_failure_stops_turn (messages : list Message)
        (userMessage userId : string) (w : World) (e : Error) :
  getSession env = Session userId ->
  insertError env (userRow userMessage userId) = Some e ->
  let w' := handleResponse env messages userMessage w in
  console w' = console w ++ [e] /\
  toasts w' = toasts w ++ [failureNotice] /\
  chat_messages w' = chat_messages w /\
  invocations w' = invocations w /\
  serverEvents w' = serverEvents w /\
  NovaChat.messages w' = NovaChat.messages w /\
  isLoading w' = false.
Proof.
  intros Hs Hi. cbn zeta. rewrite (handleResponse_insert_error _ _ _ _ _ _ Hs Hi).
  repeat split.
Qed.

(** X14. When the model has answered and the store then refuses the bot
    row, the reply is dropped: the log is unchanged and the failure
    notice is shown, although the user row is in the table and the edge
    function was invoked once. *)
Theorem bot_insert_failure_drops_reply (messages : list Message)
        (userMessage userId : string) (w : World) (r : UpstreamResponse)
        (c : Choice) (rest : list Choice) (e : Error) :
  getSession env = Session userId ->
  insertError env (userRow userMessage userId) = None ->
  fetch env completionsUrl (completionRequest (sliceLast 5 messages) userMessage)
    = Resolved r ->
  ok r = true ->
  choices (upstreamJson r) = c :: rest ->
  insertError env (botRow (choiceContent (choiceMessage c))) = Some e ->
  let w' := handleResponse env messages userMessage w in
  NovaChat.messages w' = NovaChat.messages w /\
  chat_messages w' = chat_messages w ++ [userRow userMessage userId] /\
  invocations w' =
    invocations w ++ [ {| message := userMessage; context := sliceLast 5 messages |} ] /\
  toasts w' = toasts w ++ [failureNotice] /\
  console w' = console w ++ [e] /\
  isLoading w' = false.
Proof.
  intros Hs Hi Hf Hok Hc Hb.
  pose proof (turn_first_completion (fetch env)
                {| method := "POST";
                   json := {| message := userMessage; context := sliceLast 5 messages |} |}
                (serverEvents w) r c rest Hf Hok Hc) as Hturn.
  cbn zeta. rewrite (handleResponse_replied _ _ _ _ _ _ _ Hs Hi Hturn).
  cbn zeta. cbn [content aiMessage]. rewrite Hb. repeat split.
Qed.

(** X15. A turn that goes through, in full: the table gains the user row
    and the bot row, the edge function is invoked once with the message
    and the last five entries of the log the handler closed over, one
    request reaches the endpoint, the log gains the user's message and
    the reply with the options for that message, and no notice is
    shown. *)
Theorem successful_turn_effects (messages : list Message) (userMessage modelText : string)
        (w : World) :
  turnSucceeds env messages userMessage modelText ->
  let w' := handleResponse env messages userMessage w in
  (exists userId,
     getSession env = Session userId /\
     chat_messages w' = chat_messages w ++ [userRow userMessage userId; botRow modelText]) /\
  invocations w' =
    invocations w ++ [ {| message := userMessage; context := sliceLast 5 messages |} ] /\
  fetches (serverEvents w') =
    fetches (serverEvents w) ++ [completionRequest (sliceLast 5 messages) userMessage] /\
  NovaChat.messages w' =
    NovaChat.messages w ++
    [ {| type := user; content := userMessage; options := None |};
      {| type := bot; content := modelText; options := Some (optionsFor userMessage) |}] /\
  toasts w' = toasts w /\
  console w' = console w /\
  isLoading w' = false.
Proof.
  intros (userId & r & c & rest & Hs & Hi & Hf & Hok & Hc & Ht & Hb).
  pose proof (turn_first_completion (fetch env)
                {| method := "POST";
                   json := {| message := userMessage; context := sliceLast 5 messages |} |}
                (serverEvents w) r c rest Hf Hok Hc) as Hturn.
  rewrite Ht in Hturn.
  cbn zeta. rewrite (handleResponse_replied _ _ _ _ _ _ _ Hs Hi Hturn).
  cbn zeta. cbn [content aiMessage]. rewrite Hb.
  split; [exists userId; split; [exact Hs|]; cbn; now rewrite <- app_assoc|].
  split; [reflexivity|].
  split; [cbn; now rewrite fetches_app|].
  repeat split.
Qed.

End TurnOutcomes.

Section UpstreamDetail.
Import Js Chat NovaChat Wording Table.

(** X16. What the endpoint's failure was is not visible in the widget:
    for two environments with the same session and the same store whose
    endpoints both fail, in whatever way, the turn leaves the same log,
    notices, console output, rows and invocations. *)
Theorem upstream_detail_not_shown (session : SessionResult)
        (store : Row -> option Error)
        (fetch1 fetch2 : string -> CompletionRequest -> FetchResult)
        (messages : list Message) (userMessage : string) (w : World) :
  upstreamFails (fetch1 completionsUrl
                   (completionRequest (sliceLast 5 messages) userMessage)) ->
  upstreamFails (fetch2 completionsUrl
                   (completionRequest (sliceLast 5 messages) userMessage)) ->
  sameForUser
    (handleResponse {| getSession := session; insertError := store; fetch := fetch1 |}
       messages userMessage w)
    (handleResponse {| getSession := session; insertError := store; fetch := fetch2 |}
       messages userMessage w).
Proof.
  intros H1 H2.
  set (env1 := {| getSession := session; insertError := store; fetch := fetch1 |}).
  set (env2 := {| getSession := session; insertError := store; fetch := fetch2 |}).
  destruct session as [e| |userId] eqn:Hs.
  - rewrite (handleResponse_session_error env1 _ _ _ e eq_refl),
            (handleResponse_session_error env2 _ _ _ e eq_refl).
    repeat split.
  - rewrite (handleResponse_no_session env1 _ _ _ eq_refl),
            (handleResponse_no_session env2 _ _ _ eq_refl).
    repeat split.
  - destruct (store (userRow userMessage userId)) as [e|] eqn:Hi.
    + rewrite (handleResponse_insert_error env1 _ _ _ userId e eq_refl Hi),
              (handleResponse_insert_error env2 _ _ _ userId e eq_refl Hi).
      repeat split.
    + destruct (upstreamFails_turn_throws env1
                  {| message := userMessage; context := sliceLast 5 messages |}
                  (serverEvents w) H1) as (e1 & t1 & Ht1).
      destruct (upstreamFails_turn_throws env2
                  {| message := userMessage; context := sliceLast 5 messages |}
                  (serverEvents w) H2) as (e2 & t2 & Ht2).
      rewrite (handleResponse_invoke_error env1 _ _ _ userId e1 t1 eq_refl Hi Ht1),
              (handleResponse_invoke_error env2 _ _ _ userId e2 t2 eq_refl Hi Ht2).
      repeat split.
Qed.

End UpstreamDetail.

(** ** Runs of events *)

Section RunFacts.
Import Js Chat NovaChat Wording Table Events.

Variable autocorrect : string -> string.

Lemma sliceLast_length {A : Type} (n : nat) (a : list A) : length (sliceLast n a) <= n.
Proof. unfold sliceLast. rewrite length_skipn. lia. Qed.

Lemma countRows_app (ty : string) (r1 r2 : list Row) :
  countRows ty (r1 ++ r2) = countRows ty r1 + countRows ty r2.
Proof. unfold countRows. now rewrite List.filter_app, length_app. Qed.

(** What a piece of a run adds, and what holds of the additions. *)
Local Abbreviation adds w w' ms ts cs rows invs evs :=
  (NovaChat.messages w' = NovaChat.messages w ++ ms /\
   toasts w' = toasts w ++ ts /\
   console w' = console w ++ cs /\
   chat_messages w' = chat_messages w ++ rows /\
   invocations w' = invocations w ++ invs /\
   serverEvents w' = serverEvents w ++ evs /\
   Forall wellFormedRow rows /\
   countRows "bot" rows <= countRows "user" rows /\
   Forall (fun b => length (context b) <= 5) invs /\
   Forall (fun q => length (Chat.messages q) <= 7) (fetches evs)).

Lemma handleResponse_adds (env : Env) (messages : list Message) (userMessage : string)
      (w : World) :
  exists ms ts cs rows invs evs,
    adds w (handleResponse env messages userMessage w) ms ts cs rows invs evs.
Proof.
  destruct (handleResponse_effects env messages userMessage w)
    as (_ & _ & ms & rows & ts & cs & invs & evs &
        Hm & Hr & Ht & Hc & Hi & He & Hshape).
  cbn zeta in *. exists ms, ts, cs, rows, invs, evs.
  repeat (split; [assumption|]).
  assert (Hctx : length (context {| message := userMessage;
                                    context := sliceLast 5 messages |}) <= 5)
    by apply sliceLast_length.
  assert (Hreq : length (Chat.messages
                           (completionRequest (sliceLast 5 messages) userMessage)) <= 7).
  { cbn. rewrite length_app, length_map. cbn.
    pose proof (sliceLast_length 5 messages). lia. }
  assert (Huser : forall u, wellFormedRow (userRow userMessage u))
    by (intros u; left; split; [reflexivity | now exists u]).
  assert (Hbot : forall t, wellFormedRow (botRow t)) by (intros t; right; now split).
  destruct Hshape as [H | [H | [H | H]]].
  - destruct H as (_ & _ & -> & -> & -> & _). cbn. repeat split; constructor.
  - destruct H as (_ & _ & _ & -> & -> & -> & _). cbn. repeat split; constructor.
  - destruct H as (u & _ & _ & -> & -> & -> & _).
    split; [constructor; [apply Huser | constructor]|].
    split; [cbn; lia|].
    split; constructor; (exact Hctx || exact Hreq || constructor).
  - destruct H as (u & text & _ & _ & -> & -> & -> & _).
    split; [constructor; [apply Huser | constructor; [apply Hbot | constructor]]|].
    split; [cbn; lia|].
    split; constructor; (exact Hctx || exact Hreq || constructor).
Qed.

Lemma step_adds (w : World) (turn : Env * UiEvent) :
  exists ms ts cs rows invs evs,
    adds w (step autocorrect w turn) ms ts cs rows invs evs.
Proof.
  assert (Hnone : adds w w [] [] [] [] [] []).
  { rewrite !app_nil_r. cbn. repeat split; (reflexivity || constructor). }
  destruct turn as [env [option| |text]]; unfold step; cbn [fst snd].
  - unfold clickOption, handleOptionClick.
    destruct (handleResponse_adds env (NovaChat.messages w) option
                (setMessages (fun prev => prev ++ [userEntry option]) w))
      as (ms & ts & cs & rows & invs & evs & Hm & H).
    exists ([userEntry option] ++ ms), ts, cs, rows, invs, evs.
    split; [|exact H]. rewrite Hm. cbn. now rewrite <- app_assoc.
  - unfold send, handleSend.
    destruct (negb (truthy (trim (input w))) || isLoading w).
    + exists [], [], [], [], [], []. exact Hnone.
    + destruct (String.eqb (autocorrect (input w)) (input w)).
      * destruct (handleResponse_adds env (NovaChat.messages w) (autocorrect (input w))
                    (setInput "" w)) as (ms & ts & cs & rows & invs & evs & H).
        exists ms, ts, cs, rows, invs, evs. exact H.
      * destruct (handleResponse_adds env (NovaChat.messages w) (autocorrect (input w))
                    (setInput "" (toast spellingNotice w)))
          as (ms & ts & cs & rows & invs & evs & Hm & Ht & H).
        exists ms, ([spellingNotice] ++ ts), cs, rows, invs, evs.
        split; [exact Hm|]. split; [|exact H].
        rewrite Ht. cbn. now rewrite <- app_assoc.
  - exists [], [], [], [], [], []. exact Hnone.
Qed.

Lemma run_adds (turns : list (Env * UiEvent)) (w : World) :
  exists ms ts cs rows invs evs,
    adds w (run autocorrect turns w) ms ts cs rows invs evs.
Proof.
  revert w. induction turns as [|turn turns IH]; intros w.
  - exists [], [], [], [], [], []. rewrite !app_nil_r. cbn.
    repeat split; (reflexivity || constructor).
  - cbn [run fold_left].
    destruct (step_adds w turn)
      as (ms1 & ts1 & cs1 & rows1 & invs1 & evs1 &
          Hm1 & Ht1 & Hc1 & Hr1 & Hi1 & He1 & Hw1 & Hn1 & Hb1 & Hq1).
    destruct (IH (step autocorrect w turn))
      as (ms2 & ts2 & cs2 & rows2 & invs2 & evs2 &
          Hm2 & Ht2 & Hc2 & Hr2 & Hi2 & He2 & Hw2 & Hn2 & Hb2 & Hq2).
    exists (ms1 ++ ms2), (ts1 ++ ts2), (cs1 ++ cs2), (rows1 ++ rows2),
           (invs1 ++ invs2), (evs1 ++ evs2).
    change (fold_left (step autocorrect) turns (step autocorrect w turn))
      with (run autocorrect turns (step autocorrect w turn)).
    rewrite Hm2, Ht2, Hc2, Hr2, Hi2, He2, Hm1, Ht1, Hc1, Hr1, Hi1, He1.
    rewrite <- !app_assoc. repeat (split; [reflexivity|]).
    split; [now apply Forall_app|].
    split; [rewrite !countRows_app; lia|].
    split; [now apply Forall_app|].
    rewrite fetches_app. now apply Forall_app.
Qed.

(** X17. Nothing the widget shows or stores is ever taken back: over
    any sequence of events, the log, the notices, the console output,
    the table, the invocations and the edge function's events only grow
    at the end. *)
Theorem run_append_only (turns : list (Env * UiEvent)) (w : World) :
  let w' := run autocorrect turns w in
  NovaChat.messages w `prefix_of` NovaChat.messages w' /\
  toasts w `prefix_of` toasts w' /\
  console w `prefix_of` console w' /\
  chat_messages w `prefix_of` chat_messages w' /\
  invocations w `prefix_of` invocations w' /\
  serverEvents w `prefix_of` serverEvents w'.
Proof.
  destruct (run_adds turns w)
    as (ms & ts & cs & rows & invs & evs & Hm & Ht & Hc & Hr & Hi & He & _).
  cbn zeta. rewrite Hm, Ht, Hc, Hr, Hi, He.
  repeat split; apply prefix_app_r; reflexivity.
Qed.

(** X18. The table the widget fills is well formed after any sequence
    of events: every user row names its user, every bot row names none,
    and there are never more bot rows than user rows. *)
Theorem table_rows_well_formed (turns : list (Env * UiEvent)) :
  let w := run autocorrect turns initialWorld in
  Forall wellFormedRow (chat_messages w) /\
  countRows "bot" (chat_messages w) <= countRows "user" (chat_messages w).
Proof.
  destruct (run_adds turns initialWorld)
    as (ms & ts & cs & rows & invs & evs & _ & _ & _ & Hr & _ & _ & Hw & Hn & _).
  cbn zeta. rewrite Hr. cbn. split; assumption.
Qed.

(** X19. The model never gets more than a short window: after any
    sequence of events, every invocation of the edge function carried at
    most five messages of context, and every request that reached the
    endpoint had at most seven entries. *)
Theorem requests_bounded (turns : list (Env * UiEvent)) :
  let w := run autocorrect turns initialWorld in
  Forall (fun b => length (context b) <= 5) (invocations w) /\
  Forall (fun q => length (Chat.messages q) <= 7) (fetches (serverEvents w)).
Proof.
  destruct (run_adds turns initialWorld)
    as (ms & ts & cs & rows & invs & evs & _ & _ & _ & _ & Hi & He & _ & _ & Hb & Hq).
  cbn zeta. rewrite Hi, He. cbn. split; assumption.
Qed.

End RunFacts.

(** ** Sending and clicking *)

Section SendAndClick.
Import Js Chat NovaChat Wording Table.

Variable autocorrect : string -> string.
Variable env : Env.

(** X20. A send with text in the box, while no request is in flight,
    works on the corrected text: the box is emptied whatever happens
    next; the notices shown are the spelling notice exactly when the
    correction changed the text, and after it at most one notice of the
    turn (sign-in or failure); and with a session and a store that takes
    the row, the row written and the message the edge function is
    invoked with hold the corrected text, not the text as typed. *)
Theorem handleSend_sends_corrected (messages : list Message) (input : string) (w : World) :
  whitespaceOnly input = false ->
  let w' := handleSend autocorrect env messages input false w in
  NovaChat.input w' = "" /\
  isLoading w' = false /\
  (exists ofTurn,
     toasts w' =
       toasts w ++
       (if String.eqb (autocorrect input) input then []
        else [ {| variant := None;
                  description :=
                    "I've corrected some spelling to better understand your question.";
                  duration := 3000 |} ]) ++
       ofTurn /\
     (ofTurn = [] \/ ofTurn = [signInNotice] \/ ofTurn = [failureNotice])) /\
  (forall userId,
     getSession env = Session userId ->
     insertError env (userRow (autocorrect input) userId) = None ->
     (chat_messages w ++ [userRow (autocorrect input) userId])
       `prefix_of` chat_messages w' /\
     invocations w' =
       invocations w ++
       [ {| message := autocorrect input; context := sliceLast 5 messages |} ]).
Proof.
  intros Hin. cbn zeta. unfold handleSend. rewrite trim_falsy, Hin. cbn [orb].
  set (w1 := if String.eqb (autocorrect input) input then w else toast spellingNotice w).
  assert (Hw1 : toasts w1 =
                toasts w ++ (if String.eqb (autocorrect input) input
                             then [] else [spellingNotice]) /\
                chat_messages w1 = chat_messages w /\ invocations w1 = invocations w).
  { unfold w1. destruct (String.eqb (autocorrect input) input); cbn;
      [rewrite app_nil_r|]; auto. }
  destruct Hw1 as (Ht1 & Hr1 & Hi1).
  destruct (handleResponse_effects env messages (autocorrect input) (setInput "" w1))
    as (Hinp & Hbusy & ms & rows & ts & cs & invs & evs &
        Hm & Hr & Ht & Hc & Hi & He & Hshape).
  cbn zeta in *. cbn [NovaChat.input toasts chat_messages invocations setInput] in *.
  split; [exact Hinp|]. split; [exact Hbusy|].
  split.
  { exists ts. split; [rewrite Ht, Ht1; now rewrite <- app_assoc|].
    destruct Hshape as [H | [H | [H | H]]].
    - destruct H as (_ & _ & _ & _ & _ & -> & _). auto.
    - destruct H as (_ & _ & _ & _ & _ & _ & -> & _). auto.
    - destruct H as (u & _ & _ & _ & _ & _ & -> & _). auto.
    - destruct H as (u & text & _ & _ & _ & _ & _ & -> & _). auto. }
  intros userId Hs Hins. rewrite Hr, Hi, Hr1, Hi1.
  destruct Hshape as [H | [H | [H | H]]].
  - destruct H as (Hno & _). congruence.
  - destruct H as (Herr & _). destruct (Herr _ Hs) as [e He']. congruence.
  - destruct H as (u & Hu & _ & -> & -> & _).
    assert (u = userId) as -> by congruence. split; reflexivity.
  - destruct H as (u & text & Hu & _ & -> & -> & _).
    assert (u = userId) as -> by congruence.
    split; [|reflexivity].
    change [userRow (autocorrect input) userId; botRow text]
      with ([userRow (autocorrect input) userId] ++ [botRow text]).
    rewrite app_assoc. now apply prefix_app_r.
Qed.

(** X21. A click on an option puts the option into the log before the
    turn runs, so it stays there when the turn fails: after a click the
    log is the old log and the option followed by one more copy of the
    option and the reply, with no notice shown, or it is the old log and
    the option alone, with one notice shown (sign-in or failure). *)
Theorem failed_click_keeps_option (option : string) (w : World) :
  let w' := clickOption env option w in
  (exists text,
     NovaChat.messages w' =
       NovaChat.messages w ++
       [ {| type := user; content := option; options := None |};
         {| type := user; content := option; options := None |};
         {| type := bot; content := text; options := Some (optionsFor option) |} ] /\
     toasts w' = toasts w) \/
  (NovaChat.messages w' =
     NovaChat.messages w ++ [ {| type := user; content := option; options := None |} ] /\
   (toasts w' = toasts w ++ [signInNotice] \/ toasts w' = toasts w ++ [failureNotice])).
Proof.
  cbn zeta. unfold clickOption, handleOptionClick.
  destruct (handleResponse_effects env (NovaChat.messages w) option
              (setMessages (fun prev => prev ++ [userEntry option]) w))
    as (_ & _ & ms & rows & ts & cs & invs & evs &
        Hm & _ & Ht & _ & _ & _ & Hshape).
  cbn zeta in *. cbn [NovaChat.messages toasts setMessages] in *.
  rewrite Hm, Ht.
  destruct Hshape as [H | [H | [H | H]]].
  - destruct H as (_ & -> & _ & _ & _ & -> & _). right. rewrite app_nil_r. auto.
  - destruct H as (_ & _ & -> & _ & _ & _ & -> & _). right. rewrite app_nil_r. auto.
  - destruct H as (u & _ & -> & _ & _ & _ & -> & _). right. rewrite app_nil_r. auto.
  - destruct H as (u & text & _ & -> & _ & _ & _ & -> & _). left. exists text.
    rewrite app_nil_r, <- app_assoc. auto.
Qed.

End SendAndClick.

(** ** The location handler *)

Section LocationFacts.
Import NovaChat Geolocation.

Variable Number : Type.

(** X22. Asking for the position never changes the place the widget is
    set to: city, state, country and emergency contacts stay as they
    are whatever the browser answers. Only a reported position changes
    the location, and only its coordinates, which become the reported
    ones; an error leaves the location as it is and shows the
    "unable" notice; a browser without geolocation gets no notice at
    all. The success notice names Chennai whatever the position is. *)
Theorem requestLocationPermission_frame (navigator : Navigator Number)
        (s : LocationState Number) :
  let s' := requestLocationPermission navigator s in
  city (location s') = city (location s) /\
  state (location s') = state (location s) /\
  country (location s') = country (location s) /\
  emergencyContacts (location s') = emergencyContacts (location s) /\
  (forall position, navigator = WithGeolocation (Some position) ->
     coordinates (location s') = Some position /\
     notices s' = notices s ++ [locationUpdatedNotice]) /\
  (navigator = WithGeolocation None ->
     location s' = location s /\
     notices s' = notices s ++ [locationUnavailableNotice]) /\
  (navigator = NoGeolocation -> s' = s).
Proof.
  cbn zeta. destruct navigator as [|[position|]]; cbn;
    repeat (split; [reflexivity|]).
  - split; [discriminate|]. split; [discriminate|reflexivity].
  - split; [|split; discriminate].
    intros p [= <-]. destruct position; split; reflexivity.
  - split; [discriminate|]. split; [|discriminate]. intros _. split; reflexivity.
Qed.

End LocationFacts.

(** ** The further properties on sample inputs *)

Section FurtherExamples.
Import Js Chat NovaChat Wording Table Events Fixtures Samples Geolocation.

Local Abbreviation sampleCompletionRequest :=
  (completionRequest (context (json sampleRequest)) (message (json sampleRequest))).

Lemma serve_uses_first_completion_witness :
  String.eqb (method sampleRequest) "OPTIONS" = false /\
  respond (twoCompletions "First." "Second.") completionsUrl sampleCompletionRequest
    = Resolved (twoCompletions "First." "Second.") /\
  ok (twoCompletions "First." "Second.") = true /\
  choices (upstreamJson (twoCompletions "First." "Second."))
    = {| choiceMessage := {| choiceContent := "First." |} |}
      :: [ {| choiceMessage := {| choiceContent := "Second." |} |} ] /\
  fst (serve (respond (twoCompletions "First." "Second.")) sampleRequest [])
    = Returned (Reply {| type := bot; content := "First.";
                         options := Some (optionsFor "What are flood risks?") |}) /\
  status (Reply (aiMessage "What are flood risks?" "First.")) = 200.
Proof.
  split; [reflexivity|]. split; [reflexivity|]. split; [reflexivity|].
  split; [reflexivity|].
  apply (serve_uses_first_completion (respond (twoCompletions "First." "Second."))
           sampleRequest [] (twoCompletions "First." "Second.")
           {| choiceMessage := {| choiceContent := "First." |} |}
           [ {| choiceMessage := {| choiceContent := "Second." |} |} ]);
    reflexivity.
Defined.

Lemma serve_fetch_rejected_witness :
  String.eqb (method sampleRequest) "OPTIONS" = false /\
  unreachable completionsUrl sampleCompletionRequest = Rejected offline /\
  serve unreachable sampleRequest [] =
    (Returned (Failure "Failed to get response. Please try again." (errorMessage offline)),
     [] ++ [ConsoleLog "Received message:"; ConsoleLog "Context:";
            Fetched completionsUrl sampleCompletionRequest;
            ConsoleError "Error in chat function:"]) /\
  status (Failure "Failed to get response. Please try again." (errorMessage offline)) = 500.
Proof.
  split; [reflexivity|]. split; [reflexivity|].
  apply (serve_fetch_rejected unreachable sampleRequest [] offline); reflexivity.
Defined.

Lemma reply_shown_only_if_stored_witness :
  NovaChat.messages
    (handleResponse (envOf (Session "u1") (upstreamReply "Floods rise fast."))
       initialMessages "What are flood risks?" initialWorld) =
    NovaChat.messages initialWorld ++
    [userEntry "What are flood risks?";
     aiMessage "What are flood risks?" "Floods rise fast."] /\
  exists userId,
    getSession (envOf (Session "u1") (upstreamReply "Floods rise fast.")) = Session userId /\
    chat_messages
      (handleResponse (envOf (Session "u1") (upstreamReply "Floods rise fast."))
         initialMessages "What are flood risks?" initialWorld) =
      chat_messages initialWorld ++
      [userRow "What are flood risks?" userId; botRow "Floods rise fast."].
Proof.
  split; [reflexivity|].
  apply (reply_shown_only_if_stored
           (envOf (Session "u1") (upstreamReply "Floods rise fast."))
           initialMessages "What are flood risks?" "Floods rise fast." initialWorld).
  reflexivity.
Defined.

Lemma session_error_stops_turn_witness :
  getSession (envOf (SessionError offline) (upstreamReply "Floods rise fast."))
    = SessionError offline /\
  (let w' := handleResponse (envOf (SessionError offline) (upstreamReply "Floods rise fast."))
               initialMessages "What are flood risks?" initialWorld in
   console w' = console initialWorld ++ [offline] /\
   toasts w' = toasts initialWorld ++ [failureNotice] /\
   chat_messages w' = chat_messages initialWorld /\
   invocations w' = invocations initialWorld /\
   serverEvents w' = serverEvents initialWorld /\
   NovaChat.messages w' = NovaChat.messages initialWorld /\
   isLoading w' = false).
Proof.
  split; [reflexivity|].
  apply (session_error_stops_turn
           (envOf (SessionError offline) (upstreamReply "Floods rise fast."))
           initialMessages "What are flood risks?" initialWorld offline).
  reflexivity.
Defined.

Lemma user_insert_failure_stops_turn_witness :
  getSession (envRefusing "user" (upstreamReply "Floods rise fast.")) = Session "u1" /\
  insertError (envRefusing "user" (upstreamReply "Floods rise fast."))
    (userRow "What are flood risks?" "u1") = Some storeDown /\
  (let w' := handleResponse (envRefusing "user" (upstreamReply "Floods rise fast."))
               initialMessages "What are flood risks?" initialWorld in
   console w' = console initialWorld ++ [storeDown] /\
   toasts w' = toasts initialWorld ++ [failureNotice] /\
   chat_messages w' = chat_messages initialWorld /\
   invocations w' = invocations initialWorld /\
   serverEvents w' = serverEvents initialWorld /\
   NovaChat.messages w' = NovaChat.messages initialWorld /\
   isLoading w' = false).
Proof.
  split; [reflexivity|]. split; [reflexivity|].
  apply (user_insert_failure_stops_turn
           (envRefusing "user" (upstreamReply "Floods rise fast."))
           initialMessages "What are flood risks?" "u1" initialWorld storeDown);
    reflexivity.
Defined.

Lemma bot_insert_failure_drops_reply_witness :
  getSession (envRefusing "bot" (upstreamReply "Floods rise fast.")) = Session "u1" /\
  insertError (envRefusing "bot" (upstreamReply "Floods rise fast."))
    (userRow "What are flood risks?" "u1") = None /\
  fetch (envRefusing "bot" (upstreamReply "Floods rise fast.")) completionsUrl
    (completionRequest (sliceLast 5 initialMessages) "What are flood risks?")
    = Resolved (upstreamReply "Floods rise fast.") /\
  ok (upstreamReply "Floods rise fast.") = true /\
  choices (upstreamJson (upstreamReply "Floods rise fast."))
    = {| choiceMessage := {| choiceContent := "Floods rise fast." |} |} :: [] /\
  insertError (envRefusing "bot" (upstreamReply "Floods rise fast."))
    (botRow "Floods rise fast.") = Some storeDown /\
  (let w' := handleResponse (envRefusing "bot" (upstreamReply "Floods rise fast."))
               initialMessages "What are flood risks?" initialWorld in
   NovaChat.messages w' = NovaChat.messages initialWorld /\
   chat_messages w' = chat_messages initialWorld ++ [userRow "What are flood risks?" "u1"] /\
   invocations w' =
     invocations initialWorld ++
     [ {| message := "What are flood risks?"; context := sliceLast 5 initialMessages |} ] /\
   toasts w' = toasts initialWorld ++ [failureNotice] /\
   console w' = console initialWorld ++ [storeDown] /\
   isLoading w' = false).
Proof.
  repeat (split; [reflexivity|]).
  apply (bot_insert_failure_drops_reply
           (envRefusing "bot" (upstreamReply "Floods rise fast."))
           initialMessages "What are flood risks?" "u1" initialWorld
           (upstreamReply "Floods rise fast.")
           {| choiceMessage := {| choiceContent := "Floods rise fast." |} |} []
           storeDown); reflexivity.
Defined.

Lemma successful_turn_effects_witness :
  turnSucceeds (envOf (Session "u1") (upstreamReply "Floods rise fast."))
    initialMessages "What are flood risks?" "Floods rise fast." /\
  (let w' := handleResponse (envOf (Session "u1") (upstreamReply "Floods rise fast."))
               initialMessages "What are flood risks?" initialWorld in
   (exists userId,
      getSession (envOf (Session "u1") (upstreamReply "Floods rise fast.")) = Session userId /\
      chat_messages w' =
        chat_messages initialWorld ++
        [userRow "What are flood risks?" userId; botRow "Floods rise fast."]) /\
   invocations w' =
     invocations initialWorld ++
     [ {| message := "What are flood risks?"; context := sliceLast 5 initialMessages |} ] /\
   fetches (serverEvents w') =
     fetches (serverEvents initialWorld) ++
     [completionRequest (sliceLast 5 initialMessages) "What are flood risks?"] /\
   NovaChat.messages w' =
     NovaChat.messages initialWorld ++
     [ {| type := user; content := "What are flood risks?"; options := None |};
       {| type := bot; content := "Floods rise fast.";
          options := Some (optionsFor "What are flood risks?") |}] /\
   toasts w' = toasts initialWorld /\
   console w' = console initialWorld /\
   isLoading w' = false).
Proof.
  split; [apply turnSucceeds_sample|].
  apply (successful_turn_effects (envOf (Session "u1") (upstreamReply "Floods rise fast."))
           initialMessages "What are flood risks?" "Floods rise fast." initialWorld).
  apply turnSucceeds_sample.
Defined.

Lemma upstream_detail_not_shown_witness :
  upstreamFails
    (respond (upstreamError (Some "Insufficient Balance")) completionsUrl
       (completionRequest (sliceLast 5 initialMessages) "What are flood risks?")) /\
  upstreamFails
    (unreachable completionsUrl
       (completionRequest (sliceLast 5 initialMessages) "What are flood risks?")) /\
  sameForUser
    (handleResponse
       {| getSession := Session "u1"; insertError := fun _ => None;
          fetch := respond (upstreamError (Some "Insufficient Balance")) |}
       initialMessages "What are flood risks?" initialWorld)
    (handleResponse
       {| getSession := Session "u1"; insertError := fun _ => None;
          fetch := unreachable |}
       initialMessages "What are flood risks?" initialWorld).
Proof.
  split; [left; reflexivity|]. split; [exact I|].
  apply (upstream_detail_not_shown (Session "u1") (fun _ => None)
           (respond (upstreamError (Some "Insufficient Balance"))) unreachable
           initialMessages "What are flood risks?" initialWorld);
    [left; reflexivity | exact I].
Defined.

Lemma handleSend_sends_corrected_witness :
  whitespaceOnly "flod risk" = false /\
  (let w' := handleSend fixFlod (envOf (Session "u1") (upstreamReply "Floods rise fast."))
               initialMessages "flod risk" false initialWorld in
   NovaChat.input w' = "" /\
   isLoading w' = false /\
   (exists ofTurn,
      toasts w' =
        toasts initialWorld ++
        (if String.eqb (fixFlod "flod risk") "flod risk" then []
         else [ {| variant := None;
                   description :=
                     "I've corrected some spelling to better understand your question.";
                   duration := 3000 |} ]) ++
        ofTurn /\
      (ofTurn = [] \/ ofTurn = [signInNotice] \/ ofTurn = [failureNotice])) /\
   (forall userId,
      getSession (envOf (Session "u1") (upstreamReply "Floods rise fast.")) = Session userId ->
      insertError (envOf (Session "u1") (upstreamReply "Floods rise fast."))
        (userRow (fixFlod "flod risk") userId) = None ->
      (chat_messages initialWorld ++ [userRow (fixFlod "flod risk") userId])
        `prefix_of` chat_messages w' /\
      invocations w' =
        invocations initialWorld ++
        [ {| message := fixFlod "flod risk"; context := sliceLast 5 initialMessages |} ])).
Proof.
  split; [reflexivity|].
  apply (handleSend_sends_corrected fixFlod
           (envOf (Session "u1") (upstreamReply "Floods rise fast."))
           initialMessages "flod risk" initialWorld).
  reflexivity.
Defined.

(** A send of text the correction leaves alone shows no spelling
    notice. *)
Example send_unchanged_text :
  toasts (send fixFlod (envOf (Session "u1") (upstreamReply "Floods rise fast."))
            (setInput "What are flood risks?" initialWorld)) = [].
Proof. reflexivity. Qed.

(** The corrected text is what is stored and shown. *)
Example send_corrected_text :
  let w' := send fixFlod (envOf (Session "u1") (upstreamReply "Floods rise fast."))
              (setInput "flod risk" initialWorld) in
  chat_messages w' = [userRow "flood risk" "u1"; botRow "Floods rise fast."] /\
  toasts w' = [spellingNotice] /\
  NovaChat.messages w' =
    initialMessages ++
    [userEntry "flood risk";
     {| type := bot; content := "Floods rise fast.";
        options := Some ["How can I prepare?"; "Show emergency contacts";
                         "Get local alerts"] |}].
Proof. repeat split. Qed.

(** A click without a session: the option is in the log, nothing else
    happened but the sign-in notice. *)
Example signed_out_click :
  let w' := clickOption (envOf NoSession (upstreamReply "Floods rise fast."))
              "Learn about flood risks" initialWorld in
  NovaChat.messages w' = initialMessages ++ [userEntry "Learn about flood risks"] /\
  toasts w' = [signInNotice] /\
  chat_messages w' = [] /\
  invocations w' = [].
Proof. repeat split. Qed.

Lemma requestLocationPermission_frame_witness :
  let s := {| location := defaultLocation string; notices := [] |} in
  let position := {| latitude := "13.0827"; longitude := "80.2707" |} in
  let s' := requestLocationPermission (WithGeolocation (Some position)) s in
  city (location s') = "Chennai" /\
  coordinates (location s') = Some position /\
  notices s' = [locationUpdatedNotice].
Proof.
  cbn zeta.
  pose proof (requestLocationPermission_frame string
                (WithGeolocation (Some {| latitude := "13.0827"; longitude := "80.2707" |}))
                {| location := defaultLocation string; notices := [] |}) as H.
  cbn zeta in H. destruct H as (Hcity & _ & _ & _ & Hpos & _).
  destruct (Hpos _ eq_refl) as (Hc & Hn).
  split; [exact Hcity|]. split; [exact Hc | exact Hn].
Defined.

End FurtherExamples.
